(** * pydemolib/nessiedemo/spark.py: the Spark session lifecycle manager

    A shallow embedding of [NessieDemoSpark] and of the module-level
    registry ([spark_for_demo], [spark_dispose]) as state-and-exception
    passing functions over an explicit world, followed by the properties
    the specification states about them. *)

From Stdlib Require Import Ascii String ZArith DecimalString.
From stdpp Require Import base option gmap strings list fin_maps.

Local Open Scope string_scope.

(** ** The archive URL pattern

    [re.match(".*[/]([a-zA-Z0-9-.]+)[.]tgz", spark_url)]: a backtracking
    matcher anchored at the start of the subject and nowhere else.  Each
    combinator takes the continuation that matches the rest of the
    pattern; a greedy repetition tries its longest run first and gives
    characters back one at a time when the continuation fails. *)

Module Re.

(** [.] matches every character but the line feed. *)
Definition dot (c : ascii) : bool :=
  negb (Ascii.eqb c "010"%char).

Definition in_range (lo hi c : ascii) : bool :=
  (nat_of_ascii lo <=? nat_of_ascii c)%nat && (nat_of_ascii c <=? nat_of_ascii hi)%nat.

(** The class [[a-zA-Z0-9-.]]: three ranges, then the two literals
    [-] and [.] (after the range [0-9] the hyphen is a literal). *)
Definition name_char (c : ascii) : bool :=
  in_range "a" "z" c || in_range "A" "Z" c || in_range "0" "9" c
  || Ascii.eqb c "-" || Ascii.eqb c ".".

Fixpoint all_chars (p : ascii -> bool) (s : string) : bool :=
  match s with
  | EmptyString => true
  | String c s' => p c && all_chars p s'
  end.

(** [x*] for a one-character test [p], greedy.  The continuation gets
    the text consumed and the text left. *)
Fixpoint star {A} (p : ascii -> bool) (k : string -> string -> option A)
    (s : string) : option A :=
  match s with
  | String c s' =>
      if p c then
        match star p (fun m r => k (String c m) r) s' with
        | Some a => Some a
        | None => k EmptyString s
        end
      else k EmptyString s
  | EmptyString => k EmptyString s
  end.

(** [x+]: one character, then [x*]. *)
Definition plus {A} (p : ascii -> bool) (k : string -> string -> option A)
    (s : string) : option A :=
  match s with
  | String c s' => if p c then star p (fun m r => k (String c m) r) s' else None
  | EmptyString => None
  end.

(** A literal piece of the pattern. *)
Fixpoint lit {A} (l : string) (k : string -> option A) (s : string) : option A :=
  match l with
  | EmptyString => k s
  | String a l' =>
      match s with
      | String c s' => if Ascii.eqb a c then lit l' k s' else None
      | EmptyString => None
      end
  end.

(** The whole pattern; the result is [m.group(1)] when there is a match. *)
Definition match_tarball (url : string) : option string :=
  star dot
    (fun _ r1 =>
       lit "/"
         (fun r2 =>
            plus name_char
              (fun g r3 => lit ".tgz" (fun _ => Some g) r3) r2) r1)
    url.

End Re.


(** ** Values, exceptions, events *)

(** The exceptions the module can raise: [AttributeError] from a failed
    attribute read or [delattr], the plain [Exception] raised by hand or
    by a collaborator, and any exception of another class that comes out
    of a collaborator, given by its class name and message. *)
Inductive PyExc :=
| AttributeError (name : string)
| PyException (msg : string)
| OtherError (cls msg : string).

(** The [NessieDemo] handle (nessiedemo/demo.py), seen through the calls
    this module makes on it. *)
Record NessieDemo := {
  demo_id : nat;
  spark_tarball : string;            (* _get_versions_dict()["spark"]["tarball"] *)
  _asset_dir : string -> string;
  get_iceberg_version : string;
  get_nessie_api_uri : string
}.

(** What an instance attribute can hold. *)
Inductive Value :=
| VDemo (d : NessieDemo)
| VSession (s : nat)
| VContext (c : nat)
| VJvm (port : nat).

(** Calls that leave the module, in the order they are made. *)
Inductive Event :=
| EvPrint (line : string)
| EvWget (url dest : string)
| EvExecFail (argv : list string)
| EvFindsparkInit
| EvGatewayLaunch (port : nat)
| EvJavaImport (port : nat) (cls : string)
| EvSessionStop (s : nat)
| EvContextStop (c : nat)
| EvGatewayShutdown (port : nat)
| EvDemoStop (d : nat).

(** ** The world *)

(** A pyspark session object: its [sparkContext] and its own runtime
    configuration ([session.conf]). *)
Record SparkSession := {
  ss_context : nat;
  ss_conf : gmap string string
}.

(** pyspark's process-wide state: the live objects and the class
    attributes [SparkSession._instantiatedSession],
    [SparkContext._active_spark_context], [SparkContext._gateway] and
    [SparkContext._jvm]. *)
Record Spark := {
  sessions : gmap nat SparkSession;
  contexts : gmap nat (gmap string string);   (* each context with its SparkConf *)
  instantiated_session : option nat;
  active_spark_context : option nat;
  gateway : option nat;
  jvm : option nat
}.

(** The surroundings the module does not change: path normalisation;
    what a download and a child process do, each given by the exception
    it ends with, if any, and the file system it leaves; the interpreter
    path [sys.executable]; the Spark installation [findspark] finds by
    itself, and the exception it may end with once it has one; the
    [spark.*] defaults a new [SparkConf] loads; and whether the Java
    gateway comes up ([None]: the process exits before sending its
    port). *)
Record Platform := {
  abspath : string -> string;
  wget_result : string -> string -> gset string -> option PyExc * gset string;
  exec_result : list string -> gset string -> option PyExc * gset string;
  sys_executable : string;
  findspark_search : gset string -> option string;
  findspark_sys_path : string -> gset string -> option PyExc;
  spark_defaults : gmap string string;
  launch_gateway : option nat
}.

Record World := {
  heap : gmap nat (gmap string Value);   (* NessieDemoSpark instances: identity to __dict__ *)
  registry : option nat;                 (* __NESSIE_SPARK_DEMO__ *)
  spark : Spark;
  environ : gmap string string;          (* os.environ *)
  files : gset string;                   (* the paths for which os.path.exists holds *)
  platform : Platform;
  trace : list Event
}.

Definition with_heap (h : gmap nat (gmap string Value)) (w : World) : World :=
  {| heap := h; registry := registry w; spark := spark w; environ := environ w;
     files := files w; platform := platform w; trace := trace w |}.

Definition with_registry (r : option nat) (w : World) : World :=
  {| heap := heap w; registry := r; spark := spark w; environ := environ w;
     files := files w; platform := platform w; trace := trace w |}.

Definition with_spark (s : Spark) (w : World) : World :=
  {| heap := heap w; registry := registry w; spark := s; environ := environ w;
     files := files w; platform := platform w; trace := trace w |}.

Definition with_environ (e : gmap string string) (w : World) : World :=
  {| heap := heap w; registry := registry w; spark := spark w; environ := e;
     files := files w; platform := platform w; trace := trace w |}.

Definition with_files (f : gset string) (w : World) : World :=
  {| heap := heap w; registry := registry w; spark := spark w; environ := environ w;
     files := f; platform := platform w; trace := trace w |}.

Definition with_trace (t : list Event) (w : World) : World :=
  {| heap := heap w; registry := registry w; spark := spark w; environ := environ w;
     files := files w; platform := platform w; trace := t |}.

(** ** Computations that may raise

    A Python exception keeps every change made before it, so a
    computation returns its outcome together with the world it reached. *)

Inductive Outcome (A : Type) :=
| Return (a : A)
| Raise (e : PyExc).
Arguments Return {A} a.
Arguments Raise {A} e.

Definition M (A : Type) : Type := World -> Outcome A * World.

Definition ret {A} (a : A) : M A := fun w => (Return a, w).

Definition raise {A} (e : PyExc) : M A := fun w => (Raise e, w).

Definition bind {A B} (m : M A) (k : A -> M B) : M B :=
  fun w =>
    match m w with
    | (Return a, w') => k a w'
    | (Raise e, w') => (Raise e, w')
    end.

Declare Scope py_scope.
Delimit Scope py_scope with py.
Notation "x <- m ;; k" := (bind m (fun x => k))
  (at level 100, m at next level, right associativity) : py_scope.
Notation "m ;; k" := (bind m (fun _ => k))
  (at level 100, right associativity) : py_scope.
Local Open Scope py_scope.

(** [try: body / except AttributeError: pass]. *)
Definition try_except_AttributeError {A} (body : M A) : M unit :=
  fun w =>
    match body w with
    | (Return _, w') => (Return tt, w')
    | (Raise (AttributeError _), w') => (Return tt, w')
    | (Raise e, w') => (Raise e, w')
    end.

Definition emit (e : Event) : M unit :=
  fun w => (Return tt, with_trace (trace w ++ [e]) w).

Definition print (line : string) : M unit := emit (EvPrint line).

(** ** Instance attributes *)

(** Inside the class body an identifier of the form [__name] is rewritten
    to [_NessieDemoSpark__name]: [self.__spark] reads and writes the
    attribute [private "__spark"].  A string literal is left as it is, so
    [delattr(self, "__spark")] names the attribute ["__spark"]. *)
Definition private (name : string) : string := "_NessieDemoSpark" +:+ name.

Definition dict_of (self : nat) (w : World) : gmap string Value :=
  default ∅ (heap w !! self).

Definition getattr (self : nat) (name : string) : M Value :=
  fun w =>
    match dict_of self w !! name with
    | Some v => (Return v, w)
    | None => (Raise (AttributeError name), w)
    end.

Definition setattr (self : nat) (name : string) (v : Value) : M unit :=
  fun w => (Return tt, with_heap (<[self := <[name := v]> (dict_of self w)]> (heap w)) w).

Definition delattr (self : nat) (name : string) : M unit :=
  fun w =>
    match dict_of self w !! name with
    | Some _ => (Return tt, with_heap (<[self := delete name (dict_of self w)]> (heap w)) w)
    | None => (Raise (AttributeError name), w)
    end.

(** A new instance: an identity no live instance has, with an empty
    [__dict__]. *)
Definition new_object : M nat :=
  fun w =>
    let self := fresh (dom (heap w)) in
    (Return self, with_heap (<[self := ∅]> (heap w)) w).

(** Using an attribute as the object the code expects there; a value of
    another kind has none of the methods called on it. *)
Definition as_demo (v : Value) : M NessieDemo :=
  match v with VDemo d => ret d | _ => raise (AttributeError "NessieDemo") end.

Definition as_session (v : Value) : M nat :=
  match v with VSession s => ret s | _ => raise (AttributeError "SparkSession") end.

Definition as_context (v : Value) : M nat :=
  match v with VContext c => ret c | _ => raise (AttributeError "SparkContext") end.

(** ** The operating system and [_Util] *)

Definition os_path_exists (path : string) : M bool :=
  fun w => (Return (bool_decide (path ∈ files w)), w).

Fixpoint ends_with_slash (s : string) : bool :=
  match s with
  | EmptyString => false
  | String c EmptyString => Ascii.eqb c "/"
  | String _ s' => ends_with_slash s'
  end.

(** [os.path.join(a, b)] for a relative [b]. *)
Definition os_path_join (a b : string) : string :=
  match a with
  | EmptyString => b
  | _ => if ends_with_slash a then a +:+ b else a +:+ "/" +:+ b
  end.

Definition os_path_abspath (path : string) : M string :=
  fun w => (Return (abspath (platform w) path), w).

Definition environ_set (key value : string) : M unit :=
  fun w => (Return tt, with_environ (<[key := value]> (environ w)) w).

(** How a call outside the module ends: it returns [None] or raises. *)
Definition outcome_of (failure : option PyExc) : Outcome unit :=
  match failure with
  | None => Return tt
  | Some e => Raise e
  end.

(** [_Util.wget(url, dest)]: the download, which raises when it fails. *)
Definition wget (url dest : string) : M unit :=
  fun w =>
    let r := wget_result (platform w) url dest (files w) in
    (outcome_of r.1,
     with_trace (trace w ++ [EvWget url dest]) (with_files r.2 w)).

(** [_Util.exec_fail(argv)]: the child process, run to its end; a
    non-zero exit code is raised as an exception. *)
Definition exec_fail (argv : list string) : M unit :=
  fun w =>
    let r := exec_result (platform w) argv (files w) in
    (outcome_of r.1,
     with_trace (trace w ++ [EvExecFail argv]) (with_files r.2 w)).

(** [findspark.find()]: [SPARK_HOME] when it is set and not empty, the
    installation found by searching otherwise. *)
Definition findspark_find (w : World) : option string :=
  match environ w !! "SPARK_HOME" with
  | Some home => if String.eqb home "" then findspark_search (platform w) (files w)
                 else Some home
  | None => findspark_search (platform w) (files w)
  end.

(** [findspark.init()]: it raises [ValueError] when no installation is
    found; otherwise it writes [SPARK_HOME] and [PYSPARK_PYTHON] (kept
    when already set, [sys.executable] otherwise) and then puts pyspark
    on [sys.path], which may raise. *)
Definition findspark_init : M unit :=
  emit EvFindsparkInit ;;
  fun w =>
    match findspark_find w with
    | None =>
        (Raise (OtherError "ValueError"
                  "Couldn't find Spark, make sure SPARK_HOME env is set or Spark is in an expected location (e.g. from homebrew installation)."),
         w)
    | Some spark_home =>
        let python_path := default (sys_executable (platform w)) (environ w !! "PYSPARK_PYTHON") in
        (outcome_of (findspark_sys_path (platform w) spark_home (files w)),
         with_environ (<["PYSPARK_PYTHON" := python_path]>
                         (<["SPARK_HOME" := spark_home]> (environ w))) w)
    end.

(** [NessieDemo.stop()], on a handle whose Nessie process can be
    stopped. *)
Definition demo_stop (d : NessieDemo) : M unit := emit (EvDemoStop (demo_id d)).

(** ** pyspark and py4j, by their documented behaviour *)

Definition with_sessions (m : gmap nat SparkSession) (s : Spark) : Spark :=
  {| sessions := m; contexts := contexts s;
     instantiated_session := instantiated_session s;
     active_spark_context := active_spark_context s;
     gateway := gateway s; jvm := jvm s |}.

Definition with_contexts (m : gmap nat (gmap string string)) (s : Spark) : Spark :=
  {| sessions := sessions s; contexts := m;
     instantiated_session := instantiated_session s;
     active_spark_context := active_spark_context s;
     gateway := gateway s; jvm := jvm s |}.

Definition with_instantiated_session (o : option nat) (s : Spark) : Spark :=
  {| sessions := sessions s; contexts := contexts s;
     instantiated_session := o;
     active_spark_context := active_spark_context s;
     gateway := gateway s; jvm := jvm s |}.

Definition with_active_spark_context (o : option nat) (s : Spark) : Spark :=
  {| sessions := sessions s; contexts := contexts s;
     instantiated_session := instantiated_session s;
     active_spark_context := o;
     gateway := gateway s; jvm := jvm s |}.

Definition with_gateway (o : option nat) (s : Spark) : Spark :=
  {| sessions := sessions s; contexts := contexts s;
     instantiated_session := instantiated_session s;
     active_spark_context := active_spark_context s;
     gateway := o; jvm := jvm s |}.

Definition with_jvm (o : option nat) (s : Spark) : Spark :=
  {| sessions := sessions s; contexts := contexts s;
     instantiated_session := instantiated_session s;
     active_spark_context := active_spark_context s;
     gateway := gateway s; jvm := o |}.

Definition get_spark : M Spark := fun w => (Return (spark w), w).

Definition get_platform : M Platform := fun w => (Return (platform w), w).

Definition modify_spark (f : Spark -> Spark) : M unit :=
  fun w => (Return tt, with_spark (f (spark w)) w).

(** [SparkConf()]: the [spark.*] defaults; [conf.set(k, v)] is an insert. *)
Definition SparkConf : M (gmap string string) :=
  fun w => (Return (spark_defaults (platform w)), w).

(** What pyspark raises when the Java gateway does not come up. *)
Definition launch_failure : PyExc :=
  PyException "Java gateway process exited before sending its port number".

(** Starting a context needs the Java gateway; it is launched once and
    kept in [SparkContext._gateway], with its view in
    [SparkContext._jvm]. *)
Definition ensure_gateway : M unit :=
  sp <- get_spark ;;
  match gateway sp with
  | Some _ => ret tt
  | None =>
      pf <- get_platform ;;
      match launch_gateway pf with
      | Some port =>
          emit (EvGatewayLaunch port) ;;
          modify_spark (fun s => with_jvm (Some port) (with_gateway (Some port) s))
      | None =>
          raise launch_failure
      end
  end.

(** [SparkContext.getOrCreate(conf)]. *)
Definition SparkContext_getOrCreate (conf : gmap string string) : M nat :=
  sp <- get_spark ;;
  match active_spark_context sp with
  | Some c => ret c
  | None =>
      ensure_gateway ;;
      sp <- get_spark ;;
      let c := fresh (dom (contexts sp)) in
      modify_spark (fun s => with_active_spark_context (Some c)
                               (with_contexts (<[c := conf]> (contexts s)) s)) ;;
      ret c
  end.

(** [SparkSession.builder.config(conf=conf).getOrCreate()]: the
    instantiated session with the options applied to it, or else a new
    session on the context [conf] gets or creates. *)
Definition builder_getOrCreate (conf : gmap string string) : M nat :=
  sp <- get_spark ;;
  match instantiated_session sp ≫= (fun s => (fun o => (s, o)) <$> sessions sp !! s) with
  | Some (s, o) =>
      modify_spark
        (with_sessions
           (<[s := {| ss_context := ss_context o; ss_conf := conf ∪ ss_conf o |}]> (sessions sp))) ;;
      ret s
  | None =>
      c <- SparkContext_getOrCreate conf ;;
      sp <- get_spark ;;
      let s := fresh (dom (sessions sp)) in
      let base := default ∅ (contexts sp !! c) in
      modify_spark
        (fun sp' =>
           with_instantiated_session (Some s)
             (with_sessions
                (<[s := {| ss_context := c; ss_conf := conf ∪ base |}]> (sessions sp')) sp')) ;;
      ret s
  end.

(** [session.sparkContext]. *)
Definition sparkContext (s : nat) : M nat :=
  sp <- get_spark ;;
  match sessions sp !! s with
  | Some o => ret (ss_context o)
  | None => raise (AttributeError "sparkContext")
  end.

(** [session.newSession()]: a new session object on the same context,
    with a configuration of its own that starts from the context's. *)
Definition newSession (s : nat) : M nat :=
  sp <- get_spark ;;
  match sessions sp !! s with
  | Some o =>
      let s' := fresh (dom (sessions sp)) in
      let base := default ∅ (contexts sp !! ss_context o) in
      modify_spark
        (with_sessions (<[s' := {| ss_context := ss_context o; ss_conf := base |}]> (sessions sp))) ;;
      ret s'
  | None => raise (AttributeError "newSession")
  end.

(** [session.conf.set(key, value)]. *)
Definition session_conf_set (s : nat) (key value : string) : M unit :=
  sp <- get_spark ;;
  match sessions sp !! s with
  | Some o =>
      modify_spark
        (with_sessions
           (<[s := {| ss_context := ss_context o; ss_conf := <[key := value]> (ss_conf o) |}]>
              (sessions sp)))
  | None => raise (AttributeError "conf")
  end.

(** [context.stop()], in a process whose Java gateway answers: stops the
    context and clears [SparkContext._active_spark_context]. *)
Definition SparkContext_stop (c : nat) : M unit :=
  emit (EvContextStop c) ;;
  modify_spark (with_active_spark_context None).

(** [session.stop()], in a process whose Java gateway answers: stops the
    underlying context and clears [SparkSession._instantiatedSession].
    (With the gateway gone the call raises out of py4j; the properties
    of [dispose] below are about the calls that come back.) *)
Definition SparkSession_stop (s : nat) : M unit :=
  emit (EvSessionStop s) ;;
  sp <- get_spark ;;
  match sessions sp !! s with
  | Some o => SparkContext_stop (ss_context o)
  | None => ret tt
  end ;;
  modify_spark (with_instantiated_session None).

(** [java_import(jvm, cls)]. *)
Definition java_import (j : Value) (cls : string) : M unit :=
  match j with
  | VJvm port => emit (EvJavaImport port cls)
  | _ => raise (AttributeError "_jvm_id")
  end.

(** ** class NessieDemoSpark *)

Module NessieDemoSpark.

(** [self.__demo], [self.__spark], [self.__spark_context], [self.__jvm]. *)
Definition self__demo (self : nat) : M NessieDemo :=
  v <- getattr self (private "__demo") ;; as_demo v.

Definition self__spark (self : nat) : M nat :=
  v <- getattr self (private "__spark") ;; as_session v.

Definition self__spark_context (self : nat) : M nat :=
  v <- getattr self (private "__spark_context") ;; as_context v.

Definition __init__ (self : nat) (demo : NessieDemo) : M unit :=
  setattr self (private "__demo") (VDemo demo) ;;
  d <- self__demo self ;;
  let spark_url := spark_tarball d in
  (* derive directory name inside the tarball from the URL *)
  match Re.match_tarball spark_url with
  | None => raise (PyException ("Invalid Spark download URL " +:+ spark_url))
  | Some dir_name =>
      d <- self__demo self ;;
      let spark_dir := _asset_dir d dir_name in
      present <- os_path_exists spark_dir ;;
      (if negb present then
         d <- self__demo self ;;
         let tgz := _asset_dir d (dir_name +:+ ".tgz") in
         downloaded <- os_path_exists tgz ;;
         (if negb downloaded then wget spark_url tgz else ret tt) ;;
         target <- os_path_abspath (os_path_join spark_dir "..") ;;
         exec_fail ["tar"; "-x"; "-C"; target; "-f"; tgz]
       else ret tt) ;;
      print ("Using Spark in " +:+ spark_dir) ;;
      environ_set "SPARK_HOME" spark_dir ;;
      findspark_init
  end.

Definition __spark_conf (self : nat) (nessie_ref : string) : M (gmap string string) :=
  conf <- SparkConf ;;
  d <- self__demo self ;;
  let spark_warehouse := "file://" +:+ _asset_dir d "spark_warehouse" in
  d <- self__demo self ;;
  let spark_jars := "org.apache.iceberg:iceberg-spark3-runtime:" +:+ get_iceberg_version d in
  let conf := <["spark.jars.packages" := spark_jars]> conf in
  let conf := <["spark.sql.execution.pyarrow.enabled" := "true"]> conf in
  let conf := <["spark.sql.catalog.nessie.warehouse" := spark_warehouse]> conf in
  d <- self__demo self ;;
  let conf := <["spark.sql.catalog.nessie.url" := get_nessie_api_uri d]> conf in
  let conf := <["spark.sql.catalog.nessie.ref" := nessie_ref]> conf in
  let conf := <["spark.sql.catalog.nessie.catalog-impl" := "org.apache.iceberg.nessie.NessieCatalog"]> conf in
  let conf := <["spark.sql.catalog.nessie.auth_type" := "NONE"]> conf in
  let conf := <["spark.sql.catalog.nessie.cache-enabled" := "false"]> conf in
  let conf := <["spark.sql.catalog.nessie" := "org.apache.iceberg.spark.SparkCatalog"]> conf in
  let conf := <["spark.sql.catalog.spark_catalog" := "org.apache.iceberg.spark.SparkSessionCatalog"]> conf in
  ret conf.

Definition __jvm_for_iceberg (self : nat) (spark_context : nat) : M Value :=
  sp <- get_spark ;;
  match gateway sp with
  | None => raise (AttributeError "jvm")
  | Some port =>
      let jvm := VJvm port in
      java_import jvm "org.apache.iceberg.CatalogUtil" ;;
      java_import jvm "org.apache.iceberg.catalog.TableIdentifier" ;;
      java_import jvm "org.apache.iceberg.Schema" ;;
      java_import jvm "org.apache.iceberg.types.Types" ;;
      java_import jvm "org.apache.iceberg.PartitionSpec" ;;
      ret jvm
  end.

Definition get_or_create_spark_context (self : nat) (nessie_ref : string)
  : M (Value * Value * Value) :=
  print "Creating SparkConf, SparkSession, SparkContext ..." ;;
  conf <- __spark_conf self nessie_ref ;;
  s <- builder_getOrCreate conf ;;
  setattr self (private "__spark") (VSession s) ;;
  s <- self__spark self ;;
  sc <- sparkContext s ;;
  setattr self (private "__spark_context") (VContext sc) ;;
  sc <- self__spark_context self ;;
  j <- __jvm_for_iceberg self sc ;;
  setattr self (private "__jvm") j ;;
  print "Created SparkConf, SparkSession, SparkContext" ;;
  r1 <- getattr self (private "__spark") ;;
  r2 <- getattr self (private "__spark_context") ;;
  r3 <- getattr self (private "__jvm") ;;
  ret (r1, r2, r3).

Definition session_for_ref (self : nat) (nessie_ref : string) : M nat :=
  s <- self__spark self ;;
  new_session <- newSession s ;;
  session_conf_set new_session "spark.sql.catalog.nessie.ref" nessie_ref ;;
  ret new_session.

Definition dispose (self : nat) : M unit :=
  try_except_AttributeError
    (spark_sess <- self__spark self ;;
     print "Stopping SparkSession ..." ;;
     SparkSession_stop spark_sess ;;
     delattr self "__spark" ;;
     delattr self "__spark_context" ;;
     delattr self "__jvm" ;;
     sp <- get_spark ;;
     match active_spark_context sp with
     | Some c => SparkContext_stop c
     | None => raise (AttributeError "stop")
     end ;;
     sp <- get_spark ;;
     match gateway sp with
     | Some port => emit (EvGatewayShutdown port)
     | None => raise (AttributeError "shutdown")
     end ;;
     modify_spark (with_gateway None) ;;
     modify_spark (with_jvm None)) ;;
  try_except_AttributeError
    (d <- self__demo self ;;
     demo_stop d ;;
     delattr self "__demo").

(** The context-manager protocol: entering is a no-op that hands the
    manager back; leaving disposes, whatever the exception information
    is, and returns [None]. *)
Definition __enter__ (self : nat) : M nat := ret self.

Definition __exit__ (self : nat) (exc_type : option string) (exc_val : option PyExc)
    (exc_tb : option (list string)) : M unit :=
  dispose self.

(** [NessieDemoSpark(demo)]: allocate, then initialise. *)
Definition new (demo : NessieDemo) : M nat :=
  self <- new_object ;;
  __init__ self demo ;;
  ret self.

End NessieDemoSpark.

(** ** The module-level registry *)

Definition get__NESSIE_SPARK_DEMO__ : M (option nat) :=
  fun w => (Return (registry w), w).

Definition set__NESSIE_SPARK_DEMO__ (r : option nat) : M unit :=
  fun w => (Return tt, with_registry r w).

Definition spark_dispose : M unit :=
  r <- get__NESSIE_SPARK_DEMO__ ;;
  match r with
  | Some demo_spark =>
      NessieDemoSpark.dispose demo_spark ;;
      set__NESSIE_SPARK_DEMO__ None
  | None => ret tt
  end.

Definition spark_for_demo (demo : NessieDemo) (nessie_ref : string)
  : M (Value * Value * Value * nat) :=
  spark_dispose ;;
  demo_spark <- NessieDemoSpark.new demo ;;
  set__NESSIE_SPARK_DEMO__ (Some demo_spark) ;;
  r <- NessieDemoSpark.get_or_create_spark_context demo_spark nessie_ref ;;
  let '(spark, sc, jvm) := r in
  ret (spark, sc, jvm, demo_spark).

(** [with manager as x: body(x)] for a manager of this class.  [__exit__]
    returns [None], a false value, so an exception of the body is raised
    again once [__exit__] has run. *)
Definition exc_name (e : PyExc) : string :=
  match e with
  | AttributeError _ => "AttributeError"
  | PyException _ => "Exception"
  | OtherError cls _ => cls
  end.

Definition with_manager {A} (self : nat) (body : nat -> M A) : M A :=
  x <- NessieDemoSpark.__enter__ self ;;
  fun w =>
    match body x w with
    | (Return a, w1) =>
        (NessieDemoSpark.__exit__ self None None None ;; ret a) w1
    | (Raise e, w1) =>
        (NessieDemoSpark.__exit__ self (Some (exc_name e)) (Some e) (Some []) ;; raise e) w1
    end.

(** ** A concrete process, for the examples *)

Definition demo_platform : Platform :=
  {| abspath := fun p => p;
     wget_result := fun _ dest fs => (None, {[dest]} ∪ fs);
     exec_result := fun _ fs => (None, fs);
     sys_executable := "/usr/bin/python3";
     findspark_search := fun _ => None;
     findspark_sys_path := fun _ _ => None;
     spark_defaults := ∅;
     launch_gateway := Some 7 |}.

Definition no_spark : Spark :=
  {| sessions := ∅; contexts := ∅; instantiated_session := None;
     active_spark_context := None; gateway := None; jvm := None |}.

Definition world0 : World :=
  {| heap := ∅; registry := None; spark := no_spark; environ := ∅;
     files := ∅; platform := demo_platform; trace := [] |}.

Definition demo_with (id : nat) (url : string) : NessieDemo :=
  {| demo_id := id;
     spark_tarball := url;
     _asset_dir := fun name => "/assets/" +:+ name;
     get_iceberg_version := "0.11.1";
     get_nessie_api_uri := "http://localhost:19120/api/v1" |}.

Definition demo1 : NessieDemo :=
  demo_with 1 "https://example.org/dist/spark-3.2.1-bin-hadoop3.2.tgz".

(** The process after [spark_for_demo(demo1)]: one manager, registered,
    with its session. *)
Definition world1 : World := snd (spark_for_demo demo1 "main" world0).


(** The process after [NessieDemoSpark(demo1)] alone. *)
Definition world_new : World := snd (NessieDemoSpark.new demo1 world0).

(** A process in which the Java gateway cannot be launched. *)
Definition world_no_jvm : World :=
  {| heap := ∅; registry := None; spark := no_spark; environ := ∅; files := ∅;
     platform := {| abspath := fun p => p;
                    wget_result := fun _ dest fs => (None, {[dest]} ∪ fs);
                    exec_result := fun _ fs => (None, fs);
                    sys_executable := "/usr/bin/python3";
                    findspark_search := fun _ => None;
                    findspark_sys_path := fun _ _ => None;
                    spark_defaults := ∅;
                    launch_gateway := None |};
     trace := [] |}.

(** A process without network access: every download fails. *)
Definition world_offline : World :=
  {| heap := ∅; registry := None; spark := no_spark; environ := ∅; files := ∅;
     platform := {| abspath := fun p => p;
                    wget_result := fun url _ fs =>
                      (Some (PyException ("Could not download " +:+ url)), fs);
                    exec_result := fun _ fs => (None, fs);
                    sys_executable := "/usr/bin/python3";
                    findspark_search := fun _ => None;
                    findspark_sys_path := fun _ _ => None;
                    spark_defaults := ∅;
                    launch_gateway := Some 7 |};
     trace := [] |}.

(** ** Notions the properties are stated with *)

(** [s] ends in [suffix]. *)
Fixpoint ends_with (suffix s : string) : bool :=
  String.eqb s suffix ||
  match s with
  | EmptyString => false
  | String _ s' => ends_with suffix s'
  end.

(** A URL has a tarball segment when a slash, reached without crossing a
    line feed, is followed by a non-empty name and [.tgz]; [R] is
    whatever comes after. *)
Definition tarball_segment (url P N R : string) : Prop :=
  url = P +:+ "/" +:+ N +:+ ".tgz" +:+ R /\
  Re.all_chars Re.dot P = true /\ N <> "" /\ Re.all_chars Re.name_char N = true.

(** The calls construction makes to fetch and unpack the archive, and
    those of them made on the way from [w] to [w']. *)
Definition is_fetch_command (e : Event) : bool :=
  match e with
  | EvWget _ _ | EvExecFail _ => true
  | _ => false
  end.

Definition commands_since (w w' : World) : list Event :=
  List.filter is_fetch_command (drop (length (trace w)) (trace w')).

(** pyspark keeps a session or a context only while its gateway is up. *)
Definition gateway_up (sp : Spark) : Prop :=
  gateway sp = None -> instantiated_session sp = None /\ active_spark_context sp = None.


(** The literal configuration keys of section 6 of the specification. *)
Definition conf_keys : list string :=
  ["spark.jars.packages";
   "spark.sql.execution.pyarrow.enabled";
   "spark.sql.catalog.nessie.warehouse";
   "spark.sql.catalog.nessie.url";
   "spark.sql.catalog.nessie.ref";
   "spark.sql.catalog.nessie.catalog-impl";
   "spark.sql.catalog.nessie.auth_type";
   "spark.sql.catalog.nessie.cache-enabled";
   "spark.sql.catalog.nessie";
   "spark.sql.catalog.spark_catalog"].

(** What [session.stop()] leaves of pyspark's state, and the calls it
    makes. *)
Definition session_stopped (s : nat) (sp : Spark) : Spark :=
  with_instantiated_session None
    (match sessions sp !! s with
     | Some _ => with_active_spark_context None sp
     | None => sp
     end).

Definition session_stop_events (s : nat) (sp : Spark) : list Event :=
  EvSessionStop s ::
  match sessions sp !! s with
  | Some o => [EvContextStop (ss_context o)]
  | None => []
  end.

(** A computation that raises nothing but [AttributeError]. *)
Definition attr_only {A} (m : M A) : Prop :=
  forall w e w', m w = (Raise e, w') -> exists name, e = AttributeError name.

(** A computation every run of which, returning or raising, ends in a
    world related to the one it started from. *)
Definition respects (R : relation World) {A} (m : M A) : Prop :=
  forall w, R w (snd (m w)).

(** The imports [__jvm_for_iceberg] registers on the gateway's view. *)
Definition iceberg_imports (port : nat) : list Event :=
  [EvJavaImport port "org.apache.iceberg.CatalogUtil";
   EvJavaImport port "org.apache.iceberg.catalog.TableIdentifier";
   EvJavaImport port "org.apache.iceberg.Schema";
   EvJavaImport port "org.apache.iceberg.types.Types";
   EvJavaImport port "org.apache.iceberg.PartitionSpec"].

(** What disposal leaves alone: the registry, the environment, the file
    system, the surroundings and pyspark's session and context objects;
    no instance disappears and the trace only grows. *)
Definition kept_by_dispose (w w' : World) : Prop :=
  registry w' = registry w /\
  environ w' = environ w /\
  files w' = files w /\
  platform w' = platform w /\
  sessions (spark w') = sessions (spark w) /\
  contexts (spark w') = contexts (spark w) /\
  dom (heap w) ⊆ dom (heap w') /\
  trace w `prefix_of` trace w'.

(** ** tests/util.py *)

Module TestUtil.

(** The exceptions of this file: [OSError] from [open], [os.kill] and
    [os.unlink], [ValueError] from [int], [OverflowError] from [os.kill]
    on a number that is no [pid_t]. *)
Inductive Exc :=
| OSError
| ValueError
| OverflowError.

Inductive Result (A : Type) :=
| Ok (a : A)
| Err (x : Exc).
Arguments Ok {A} a.
Arguments Err {A} x.

Inductive Event :=
| Print (line : string)
| Kill (pid : Z).

(** The process as the fixture sees it.  [processes] are the processes
    alive; [pid_t_max] is the largest value of the platform's [pid_t];
    [signal pid ps] is what the kernel does with a SIGKILL for [pid]
    (a process for a positive [pid], a process group otherwise) while
    [ps] are alive: the processes left, or [None] when it refuses;
    [finalizers] are the closures registered with
    [request.addfinalizer], each given by the [tmpdir] it captured. *)
Record Env := {
  environ : gmap string string;
  files : gset string;
  contents : gmap string string;
  processes : gset Z;
  pid_t_max : Z;
  signal : Z -> gset Z -> option (gset Z);
  abspath : string -> string;
  parse_int : string -> option Z;          (* int(bytes) *)
  finalizers : list string;
  trace : list Event
}.

Definition with_environ (v : gmap string string) (e : Env) : Env :=
  {| environ := v; files := files e; contents := contents e; processes := processes e;
     pid_t_max := pid_t_max e; signal := signal e;
     abspath := abspath e; parse_int := parse_int e; finalizers := finalizers e;
     trace := trace e |}.

Definition with_files (v : gset string) (c : gmap string string) (e : Env) : Env :=
  {| environ := environ e; files := v; contents := c; processes := processes e;
     pid_t_max := pid_t_max e; signal := signal e;
     abspath := abspath e; parse_int := parse_int e; finalizers := finalizers e;
     trace := trace e |}.

Definition with_processes (v : gset Z) (e : Env) : Env :=
  {| environ := environ e; files := files e; contents := contents e; processes := v;
     pid_t_max := pid_t_max e; signal := signal e;
     abspath := abspath e; parse_int := parse_int e; finalizers := finalizers e;
     trace := trace e |}.

Definition with_finalizers (v : list string) (e : Env) : Env :=
  {| environ := environ e; files := files e; contents := contents e; processes := processes e;
     pid_t_max := pid_t_max e; signal := signal e;
     abspath := abspath e; parse_int := parse_int e; finalizers := v;
     trace := trace e |}.

Definition print (line : string) (e : Env) : Env :=
  {| environ := environ e; files := files e; contents := contents e; processes := processes e;
     pid_t_max := pid_t_max e; signal := signal e;
     abspath := abspath e; parse_int := parse_int e; finalizers := finalizers e;
     trace := trace e ++ [Print line] |}.

(** [str(pid)]. *)
Definition str_of_int (z : Z) : string := NilZero.string_of_int (Z.to_int z).

(** [os.kill(pid, SIGKILL)]: a number outside [pid_t] is refused with
    [OverflowError] before any system call; a signal the kernel refuses
    (no such process, no permission) is an [OSError]. *)
Definition os_kill (pid : Z) (e : Env) : Result unit * Env :=
  if bool_decide (- pid_t_max e - 1 <= pid <= pid_t_max e)%Z then
    match signal e pid (processes e) with
    | Some alive =>
        (Ok tt,
         {| environ := environ e; files := files e; contents := contents e;
            processes := alive;
            pid_t_max := pid_t_max e; signal := signal e;
            abspath := abspath e; parse_int := parse_int e; finalizers := finalizers e;
            trace := trace e ++ [Kill pid] |})
    | None => (Err OSError, e)
    end
  else (Err OverflowError, e).

(** [os.unlink(f)]. *)
Definition os_unlink (f : string) (e : Env) : Result unit * Env :=
  if bool_decide (f ∈ files e) then
    (Ok tt, with_files (files e ∖ {[f]}) (delete f (contents e)) e)
  else (Err OSError, e).

(** The finalizer [__kill_running_nessie], closed over [tmpdir]. *)
Definition __kill_running_nessie (tmpdir : string) (e : Env) : Result unit * Env :=
  let f := os_path_join tmpdir "nessie.pid" in
  if bool_decide (f ∈ files e) then
    match contents e !! f with
    | None => (Err OSError, e)                       (* open(f, "rb") *)
    | Some bytes =>
        match parse_int e bytes with
        | None => (Err ValueError, e)                (* int(inp.read()) *)
        | Some pid =>
            let e1 := print ("TEST-TEARDOWN: Sending SIGKILL to PID " +:+ str_of_int pid) e in
            (* try: os.kill; os.unlink / except OSError: pass *)
            match os_kill pid e1 with
            | (Ok _, e2) =>
                match os_unlink f e2 with
                | (Ok _, e3) => (Ok tt, e3)
                | (Err OSError, e3) => (Ok tt, e3)
                | (Err x, e3) => (Err x, e3)
                end
            | (Err OSError, e2) => (Ok tt, e2)
            | (Err x, e2) => (Err x, e2)
            end
        end
    end
  else (Ok tt, e).

(** [tmpdir_factory.mktemp(name)] makes a directory and returns its path. *)
Record TempdirFactory := { mktemp : string -> gset string -> string }.

Definition demo_setup_fixture_for_tests (tmpdir_factory : TempdirFactory) (e : Env)
  : Result unit * Env :=
  let d := abspath e ".." in
  let d := if negb (bool_decide (os_path_join d "configs" ∈ files e))
           then abspath e (os_path_join d "..") else d in
  let e := with_environ (<["NESSIE_DEMO_ROOT" := "file://" +:+ d]> (environ e)) e in
  let '(tmpdir, e) :=
    match environ e !! "NESSIE_DEMO_ASSETS" with
    | None =>
        let tmpdir := mktemp tmpdir_factory "_assets" (files e) in
        let e := with_files ({[tmpdir]} ∪ files e) (contents e) e in
        (tmpdir, with_environ (<["NESSIE_DEMO_ASSETS" := tmpdir]> (environ e)) e)
    | Some tmpdir => (tmpdir, e)
    end in
  let e := print ("TEST-TEARDOWN: Using " +:+ tmpdir +:+ " for assets") e in
  (Ok tt, with_finalizers (finalizers e ++ [tmpdir]) e).

End TestUtil.

(** A test process: working directory [/repo/pydemolib/tests], a pid
    file naming the live process 4242, no assets variable set. *)
Definition test_env : TestUtil.Env :=
  {| TestUtil.environ := ∅;
     TestUtil.files := {["/assets/nessie.pid"]};
     TestUtil.contents := {["/assets/nessie.pid" := "4242"]};
     TestUtil.processes := {[4242%Z]};
     TestUtil.pid_t_max := 2147483647;
     TestUtil.signal := fun pid alive =>
       if bool_decide (pid ∈ alive) then Some (alive ∖ {[pid]}) else None;
     TestUtil.abspath := fun p =>
       if String.eqb p ".." then "/repo/pydemolib"
       else if String.eqb p "/repo/pydemolib/.." then "/repo" else p;
     TestUtil.parse_int := fun s => if String.eqb s "4242" then Some 4242%Z else None;
     TestUtil.finalizers := [];
     TestUtil.trace := [] |}.

Definition test_tmpdir_factory : TestUtil.TempdirFactory :=
  {| TestUtil.mktemp := fun name _ => "/tmp/pytest/" +:+ name |}.

(** * Properties *)

(** ** The pattern: what it accepts and what it captures *)

Example match_spec_url :
  Re.match_tarball "https://example.org/dist/spark-3.2.1-bin-hadoop3.2.tgz"
  = Some "spark-3.2.1-bin-hadoop3.2".
Proof. reflexivity. Qed.

Example match_zip : Re.match_tarball "https://example.org/dist/spark-3.2.1.zip" = None.
Proof. reflexivity. Qed.

Example match_last_segment : Re.match_tarball "https://e/a.tgz/b.tgz" = Some "b".
Proof. reflexivity. Qed.

Example match_longest_name : Re.match_tarball "a/b.tgz.c.tgz/d" = Some "b.tgz.c".
Proof. reflexivity. Qed.

Example match_underscore : Re.match_tarball "a/b_c.tgz" = None.
Proof. reflexivity. Qed.

Example match_stops_at_newline :
  Re.match_tarball ("x/a.tgz" +:+ String "010"%char "/b.tgz") = Some "a".
Proof. reflexivity. Qed.

Section ReFacts.

Context {A : Type}.
Implicit Types (p : ascii -> bool) (s m r l : string).

Lemma append_cons c m r : String c m +:+ r = String c (m +:+ r).
Proof. reflexivity. Qed.

Lemma append_nil_r s : s +:+ "" = s.
Proof. induction s as [|c s IH]; [done |]. by rewrite append_cons, IH. Qed.

Lemma append_assoc s m r : (s +:+ m) +:+ r = s +:+ (m +:+ r).
Proof. induction s as [|c s IH]; [done |]. by rewrite !append_cons, IH. Qed.

Lemma all_chars_app p m r :
  Re.all_chars p (m +:+ r) = Re.all_chars p m && Re.all_chars p r.
Proof.
  induction m as [|c m IH]; [done |].
  rewrite append_cons. simpl. rewrite IH. by destruct (p c).
Qed.

(** Whatever [star] returns came from its continuation, called on a
    split of the subject whose first part passes the test. *)
Lemma star_sound p (k : string -> string -> option A) s a :
  Re.star p k s = Some a ->
  exists m r, s = m +:+ r /\ Re.all_chars p m = true /\ k m r = Some a.
Proof.
  revert k. induction s as [|c s IH]; intros k H; simpl in H.
  - exists "", "". done.
  - destruct (p c) eqn:Hc.
    + destruct (Re.star p (fun m r => k (String c m) r) s) as [a'|] eqn:Hs.
      * injection H as ->. apply IH in Hs as (m & r & -> & Hm & Hk).
        exists (String c m), r. simpl. by rewrite Hc, Hm.
      * exists "", (String c s). done.
    + exists "", (String c s). done.
Qed.

(** [star] finds a result whenever some split has one. *)
Lemma star_complete p (k : string -> string -> option A) m r :
  Re.all_chars p m = true -> is_Some (k m r) -> is_Some (Re.star p k (m +:+ r)).
Proof.
  revert k. induction m as [|c m IH]; intros k Hm Hk.
  - change ("" +:+ r) with r.
    destruct r as [|c r]; simpl; [done |].
    destruct (p c); [| done].
    by destruct (Re.star p _ r).
  - rewrite append_cons. simpl in *.
    apply andb_true_iff in Hm as [Hc Hm]. rewrite Hc.
    specialize (IH (fun m r => k (String c m) r) Hm Hk).
    destruct IH as [a ->]. by eexists.
Qed.

Lemma plus_sound p (k : string -> string -> option A) s a :
  Re.plus p k s = Some a ->
  exists m r, s = m +:+ r /\ m <> "" /\ Re.all_chars p m = true /\ k m r = Some a.
Proof.
  destruct s as [|c s]; simpl; [done |].
  destruct (p c) eqn:Hc; [| done].
  intros (m & r & -> & Hm & Hk)%star_sound.
  exists (String c m), r. simpl. by rewrite Hc, Hm.
Qed.

Lemma plus_complete p (k : string -> string -> option A) m r :
  m <> "" -> Re.all_chars p m = true -> is_Some (k m r) ->
  is_Some (Re.plus p k (m +:+ r)).
Proof.
  destruct m as [|c m]; [done |]. intros _ Hm Hk.
  rewrite append_cons. simpl in *.
  apply andb_true_iff in Hm as [Hc Hm]. rewrite Hc.
  by apply (star_complete p (fun m r => k (String c m) r)).
Qed.

Lemma lit_sound l (k : string -> option A) s a :
  Re.lit l k s = Some a -> exists r, s = l +:+ r /\ k r = Some a.
Proof.
  revert s. induction l as [|c l IH]; intros s H; simpl in H.
  - by exists s.
  - destruct s as [|c' s]; [done |].
    destruct (Ascii.eqb c c') eqn:Hc; [| done].
    apply Ascii.eqb_eq in Hc as <-.
    apply IH in H as (r & -> & Hk). by exists r.
Qed.

Lemma lit_complete l (k : string -> option A) r :
  Re.lit l k (l +:+ r) = k r.
Proof.
  induction l as [|c l IH]; [done |].
  rewrite append_cons. simpl. by rewrite Ascii.eqb_refl.
Qed.

End ReFacts.

Lemma match_tarball_sound url g :
  Re.match_tarball url = Some g -> exists P R, tarball_segment url P g R.
Proof.
  unfold Re.match_tarball.
  intros (P & r1 & -> & HP & H)%star_sound.
  apply lit_sound in H as (r2 & -> & H).
  apply plus_sound in H as (N & r3 & -> & HN & HNc & H).
  apply lit_sound in H as (R & -> & [= ->]).
  by exists P, R.
Qed.

Lemma match_tarball_complete url P N R :
  tarball_segment url P N R -> is_Some (Re.match_tarball url).
Proof.
  intros (-> & HP & HN & HNc). unfold Re.match_tarball.
  apply star_complete; [done |].
  rewrite (lit_complete "/").
  apply plus_complete; [done .. |].
  by rewrite (lit_complete ".tgz").
Qed.

Lemma match_tarball_None url :
  Re.match_tarball url = None <-> forall P N R, ~ tarball_segment url P N R.
Proof.
  split.
  - intros H P N R Hseg. apply match_tarball_complete in Hseg as [g Hg]. congruence.
  - intros H. destruct (Re.match_tarball url) as [g|] eqn:Hg; [| done].
    apply match_tarball_sound in Hg as (P & R & Hseg). by destruct (H P g R).
Qed.

(** ** Running a computation step by step *)

Section Running.

Context {A B : Type}.

Lemma bind_ok (m : M A) (k : A -> M B) w a w' :
  m w = (Return a, w') -> bind m k w = k a w'.
Proof. unfold bind. by intros ->. Qed.

Lemma bind_raise (m : M A) (k : A -> M B) w e w' :
  m w = (Raise e, w') -> bind m k w = (Raise e, w').
Proof. unfold bind. by intros ->. Qed.

Lemma bind_assoc {C} (m : M A) (k1 : A -> M B) (k2 : B -> M C) w :
  bind (bind m k1) k2 w = bind m (fun a => bind (k1 a) k2) w.
Proof. unfold bind. by destruct (m w) as [[a|e] w']. Qed.

Lemma bind_Return_inv (m : M A) (k : A -> M B) w b w' :
  bind m k w = (Return b, w') ->
  exists a w1, m w = (Return a, w1) /\ k a w1 = (Return b, w').
Proof. unfold bind. destruct (m w) as [[a|e] w1]; [eauto | done]. Qed.

Lemma bind_Raise_inv (m : M A) (k : A -> M B) w e w' :
  bind m k w = (Raise e, w') ->
  m w = (Raise e, w') \/ exists a w1, m w = (Return a, w1) /\ k a w1 = (Raise e, w').
Proof.
  unfold bind. destruct (m w) as [[a|e1] w1] eqn:Hm; intros H; [right; eauto |].
  left. congruence.
Qed.

Lemma try_except_caught (body : M A) w name w' :
  body w = (Raise (AttributeError name), w') ->
  try_except_AttributeError body w = (Return tt, w').
Proof. unfold try_except_AttributeError. by intros ->. Qed.

Lemma try_except_returned (body : M A) w a w' :
  body w = (Return a, w') ->
  try_except_AttributeError body w = (Return tt, w').
Proof. unfold try_except_AttributeError. by intros ->. Qed.

End Running.

Lemma bind_step {A B} (m : M A) (k : A -> M B) w a w1 r :
  m w = (Return a, w1) -> k a w1 = r -> bind m k w = r.
Proof. intros Hm <-. by apply bind_ok. Qed.

(** A run is determined by its outcome and the world it ends in. *)
Lemma run_returns {A} (m : M A) w a :
  fst (m w) = Return a -> m w = (Return a, snd (m w)).
Proof. destruct (m w) as [o w']. simpl. by intros ->. Qed.

Lemma run_raises {A} (m : M A) w e :
  fst (m w) = Raise e -> m w = (Raise e, snd (m w)).
Proof. destruct (m w) as [o w']. simpl. by intros ->. Qed.

Lemma bind_ret_run {A B} (m : M A) (b : B) w :
  bind m (fun _ => ret b) w =
    (match fst (m w) with Return _ => Return b | Raise e => Raise e end, snd (m w)).
Proof. unfold bind, ret. by destruct (m w) as [[a|e] w']. Qed.

Lemma getattr_ok self name v w :
  dict_of self w !! name = Some v -> getattr self name w = (Return v, w).
Proof. unfold getattr. by intros ->. Qed.

Lemma getattr_absent self name w :
  dict_of self w !! name = None -> getattr self name w = (Raise (AttributeError name), w).
Proof. unfold getattr. by intros ->. Qed.

Lemma delattr_absent self name w :
  dict_of self w !! name = None -> delattr self name w = (Raise (AttributeError name), w).
Proof. unfold delattr. by intros ->. Qed.

Lemma self__demo_ok self d w :
  dict_of self w !! private "__demo" = Some (VDemo d) ->
  NessieDemoSpark.self__demo self w = (Return d, w).
Proof.
  intros H. unfold NessieDemoSpark.self__demo.
  by rewrite (bind_ok _ _ _ _ _ (getattr_ok _ _ _ _ H)).
Qed.

Lemma self__spark_ok self s w :
  dict_of self w !! private "__spark" = Some (VSession s) ->
  NessieDemoSpark.self__spark self w = (Return s, w).
Proof.
  intros H. unfold NessieDemoSpark.self__spark.
  by rewrite (bind_ok _ _ _ _ _ (getattr_ok _ _ _ _ H)).
Qed.

Lemma self__spark_absent self w :
  dict_of self w !! private "__spark" = None ->
  NessieDemoSpark.self__spark self w = (Raise (AttributeError (private "__spark")), w).
Proof.
  intros H. unfold NessieDemoSpark.self__spark.
  by rewrite (bind_raise _ _ _ _ _ (getattr_absent _ _ _ H)).
Qed.

Lemma self__spark_context_ok self c w :
  dict_of self w !! private "__spark_context" = Some (VContext c) ->
  NessieDemoSpark.self__spark_context self w = (Return c, w).
Proof.
  intros H. unfold NessieDemoSpark.self__spark_context.
  by rewrite (bind_ok _ _ _ _ _ (getattr_ok _ _ _ _ H)).
Qed.

(** One step of the state-changing primitives, by computation. *)
Ltac py_cbn :=
  cbn [bind ret raise emit print setattr new_object as_demo as_session as_context
       os_path_exists os_path_abspath environ_set demo_stop
       get_spark get_platform modify_spark SparkConf java_import
       with_heap with_registry with_spark with_environ with_files with_trace
       with_sessions with_contexts with_instantiated_session
       with_active_spark_context with_gateway with_jvm
       heap registry spark environ files platform trace
       sessions contexts instantiated_session active_spark_context gateway jvm
       get__NESSIE_SPARK_DEMO__ set__NESSIE_SPARK_DEMO__ negb].

Ltac py_red := py_cbn; repeat (rewrite !bind_assoc; py_cbn).

Ltac py_cbn_in H :=
  cbn [bind ret raise emit print setattr new_object as_demo as_session as_context
       os_path_exists os_path_abspath environ_set demo_stop
       get_spark get_platform modify_spark SparkConf java_import
       with_heap with_registry with_spark with_environ with_files with_trace
       with_sessions with_contexts with_instantiated_session
       with_active_spark_context with_gateway with_jvm
       heap registry spark environ files platform trace
       sessions contexts instantiated_session active_spark_context gateway jvm
       get__NESSIE_SPARK_DEMO__ set__NESSIE_SPARK_DEMO__ negb] in H.

Ltac py_red_in H := py_cbn_in H; repeat (rewrite !bind_assoc in H; py_cbn_in H).

(** Closed facts about the example processes, by evaluation. *)
Ltac by_vm :=
  match goal with
  | |- ?a = ?b => vm_cast_no_check (@eq_refl _ b)
  | |- Is_true _ => vm_cast_no_check I
  end.


(** Attribute lookups after a run of updates. *)
Ltac dict_solve :=
  unfold dict_of in *; py_cbn; simplify_map_eq; done.

Ltac run_demo d :=
  rewrite (bind_ok (NessieDemoSpark.self__demo _) _ _ d _)
    by (apply self__demo_ok; dict_solve).

Ltac run_spark s :=
  rewrite (bind_ok (NessieDemoSpark.self__spark _) _ _ s _)
    by (apply self__spark_ok; dict_solve).

Ltac run_spark_context c :=
  rewrite (bind_ok (NessieDemoSpark.self__spark_context _) _ _ c _)
    by (apply self__spark_context_ok; dict_solve).

Ltac run_getattr v :=
  rewrite (bind_ok (getattr _ _) _ _ v _) by (apply getattr_ok; dict_solve).

(** ** Construction *)

(** The calls that leave the module, one step at a time. *)
Lemma wget_step {B} url dest (k : unit -> M B) w :
  bind (wget url dest) k w =
    let r := wget_result (platform w) url dest (files w) in
    let w1 := with_trace (trace w ++ [EvWget url dest]) (with_files r.2 w) in
    match r.1 with
    | None => k tt w1
    | Some e => (Raise e, w1)
    end.
Proof. unfold bind, wget. by destruct (wget_result _ _ _ _) as [[e|] fs]. Qed.

Lemma exec_fail_step {B} argv (k : unit -> M B) w :
  bind (exec_fail argv) k w =
    let r := exec_result (platform w) argv (files w) in
    let w1 := with_trace (trace w ++ [EvExecFail argv]) (with_files r.2 w) in
    match r.1 with
    | None => k tt w1
    | Some e => (Raise e, w1)
    end.
Proof. unfold bind, exec_fail. by destruct (exec_result _ _ _) as [[e|] fs]. Qed.

Lemma findspark_init_run w :
  let out := findspark_init w in
  heap out.2 = heap w /\ registry out.2 = registry w /\ spark out.2 = spark w /\
  platform out.2 = platform w /\ files out.2 = files w /\
  trace out.2 = (trace w ++ [EvFindsparkInit])%list /\
  (forall k, k <> "SPARK_HOME" -> k <> "PYSPARK_PYTHON" -> environ out.2 !! k = environ w !! k) /\
  (forall v, environ w !! "PYSPARK_PYTHON" = Some v ->
             environ out.2 !! "PYSPARK_PYTHON" = Some v) /\
  (forall home, environ w !! "SPARK_HOME" = Some home -> home <> "" ->
     environ out.2 !! "SPARK_HOME" = Some home /\
     out.1 = outcome_of (findspark_sys_path (platform w) home (files w))).
Proof.
  unfold findspark_init. py_red. unfold findspark_find. py_cbn.
  destruct (environ w !! "SPARK_HOME") as [h|] eqn:Hh.
  - destruct (String.eqb h "") eqn:He.
    + apply String.eqb_eq in He as ->.
      destruct (findspark_search _ _) as [h'|]; cbn [fst snd]; py_cbn.
      * split_and!; try done.
        { intros k H1 H2. by rewrite !lookup_insert_ne. }
        { intros v ->. by rewrite lookup_insert_eq. }
        by intros home [= <-].
      * split_and!; try done. by intros home [= <-].
    + apply String.eqb_neq in He. cbn [fst snd]. py_cbn.
      split_and!; try done.
      { intros k H1 H2. by rewrite !lookup_insert_ne. }
      { intros v ->. by rewrite lookup_insert_eq. }
      intros home [= <-] _. rewrite lookup_insert_ne by done. by rewrite lookup_insert_eq.
  - destruct (findspark_search _ _) as [h'|]; cbn [fst snd]; py_cbn.
    + split_and!; try done.
      { intros k H1 H2. by rewrite !lookup_insert_ne. }
      intros v ->. by rewrite lookup_insert_eq.
    + split_and!; done.
Qed.

(** The frame of a run of [findspark.init()] and of what precedes it. *)
Ltac init_use :=
  match goal with
  | |- context [findspark_init ?W] =>
      let HF := fresh "HF" in
      pose proof (findspark_init_run W) as HF; cbv zeta in HF;
      destruct (findspark_init W) as [o w1]; cbn [fst snd] in *; py_cbn_in HF;
      destruct HF as (Hh & Hr & Hs & Hp & Hf & Ht & Hk & Hpy & Hhome);
      rewrite ?Hh, ?Hr, ?Hs, ?Hp, ?Ht
  end.

Ltac init_stopped :=
  split_and!; try done;
  try (rewrite <- ?app_assoc; by apply prefix_app_r).

Ltac init_frame Hk Hpy Hhome :=
  init_stopped;
  try (intros k H1 H2; by rewrite Hk, lookup_insert_ne);
  try (intros v Hv; apply Hpy; by rewrite lookup_insert_ne);
  try (intros _ Hne; by destruct (Hhome _ (lookup_insert_eq _ _ _) Hne)).

(** What construction does once the URL has been accepted. *)
Lemma init_run self d w n :
  Re.match_tarball (spark_tarball d) = Some n ->
  let spark_dir := _asset_dir d n in
  let tgz := _asset_dir d (n +:+ ".tgz") in
  let get := EvWget (spark_tarball d) tgz in
  let tar := EvExecFail ["tar"; "-x"; "-C";
                         abspath (platform w) (os_path_join spark_dir ".."); "-f"; tgz] in
  let use := [EvPrint ("Using Spark in " +:+ spark_dir); EvFindsparkInit] in
  let out := NessieDemoSpark.__init__ self d w in
  heap out.2 = <[self := <[private "__demo" := VDemo d]> (dict_of self w)]> (heap w) /\
  registry out.2 = registry w /\
  spark out.2 = spark w /\
  platform out.2 = platform w /\
  (trace w `prefix_of` trace out.2) /\
  (forall k, k <> "SPARK_HOME" -> k <> "PYSPARK_PYTHON" ->
             environ out.2 !! k = environ w !! k) /\
  (forall v, environ w !! "PYSPARK_PYTHON" = Some v ->
             environ out.2 !! "PYSPARK_PYTHON" = Some v) /\
  (out.1 = Return tt -> spark_dir <> "" -> environ out.2 !! "SPARK_HOME" = Some spark_dir) /\
  exists rest,
    (rest = [] \/ rest = use) /\
    (out.1 = Return tt -> rest = use) /\
    (spark_dir ∈ files w ->
     trace out.2 = (trace w ++ use)%list /\
     (spark_dir <> "" ->
      out.1 = outcome_of (findspark_sys_path (platform w) spark_dir (files w)))) /\
    (spark_dir ∉ files w -> tgz ∈ files w -> trace out.2 = (trace w ++ tar :: rest)%list) /\
    (spark_dir ∉ files w -> tgz ∉ files w ->
     match (wget (spark_tarball d) tgz w).1 with
     | Return _ => trace out.2 = (trace w ++ get :: tar :: rest)%list
     | Raise e => out.1 = Raise e /\ trace out.2 = (trace w ++ [get])%list
     end).
Proof.
  intros Hm spark_dir tgz get tar use out. subst out.
  unfold NessieDemoSpark.__init__. py_red.
  run_demo d. rewrite Hm. py_red. run_demo d. py_red.
  fold spark_dir.
  case_bool_decide as Hdir; py_red.
  { init_use. init_frame Hk Hpy Hhome.
    exists use. split_and!; try done; [by right |].
    intros _. split; [by rewrite <- app_assoc |].
    intros Hne. by destruct (Hhome _ (lookup_insert_eq _ _ _) Hne). }
  run_demo d. py_red. fold tgz.
  case_bool_decide as Htgz; py_red.
  - rewrite exec_fail_step. cbv zeta.
    destruct (exec_result _ _ _) as [[e|] fs]; cbn [fst snd]; py_red.
    + init_stopped. exists []. split_and!; try done. by left.
    + init_use. init_frame Hk Hpy Hhome.
      exists use. split_and!; try done; [by right |]. by rewrite <- !app_assoc.
  - rewrite wget_step. cbv zeta. unfold wget. cbn [fst snd].
    destruct (wget_result _ _ _ _) as [[e|] fs]; cbn [fst snd outcome_of]; py_red.
    + init_stopped. exists []. split_and!; try done. by left.
    + rewrite exec_fail_step. cbv zeta.
      destruct (exec_result _ _ _) as [[e|] fs']; cbn [fst snd]; py_red.
      * init_stopped. exists []. split_and!; try done; [by left |].
        intros _ _. by rewrite <- !app_assoc.
      * init_use. init_frame Hk Hpy Hhome.
        exists use. split_and!; try done; [by right |].
        intros _ _. by rewrite <- !app_assoc.
Qed.

Lemma init_invalid_url self d w :
  Re.match_tarball (spark_tarball d) = None ->
  NessieDemoSpark.__init__ self d w =
    (Raise (PyException ("Invalid Spark download URL " +:+ spark_tarball d)),
     with_heap (<[self := <[private "__demo" := VDemo d]> (dict_of self w)]> (heap w)) w).
Proof.
  intros Hm. unfold NessieDemoSpark.__init__. py_red.
  run_demo d. by rewrite Hm.
Qed.

Lemma commands_since_app w w' l :
  trace w' = (trace w ++ l)%list -> commands_since w w' = List.filter is_fetch_command l.
Proof. unfold commands_since. intros ->. by rewrite drop_app_length. Qed.

(** A construction that returns has accepted the URL, printed the
    directory it uses and, unless that directory is the empty path,
    left it in [SPARK_HOME]. *)
Lemma init_returned self d w w' :
  NessieDemoSpark.__init__ self d w = (Return tt, w') ->
  exists n,
    Re.match_tarball (spark_tarball d) = Some n /\
    EvPrint ("Using Spark in " +:+ _asset_dir d n) ∈ trace w' /\
    (_asset_dir d n <> "" -> environ w' !! "SPARK_HOME" = Some (_asset_dir d n)).
Proof.
  intros Hrun.
  destruct (Re.match_tarball (spark_tarball d)) as [n|] eqn:Hm.
  2:{ by rewrite (init_invalid_url self d w Hm) in Hrun. }
  exists n. split; [done |].
  destruct (init_run self d w n Hm)
    as (_ & _ & _ & _ & _ & _ & _ & Hhome & rest & _ & Hrest & Hc1 & Hc2 & Hc3).
  rewrite Hrun in Hhome, Hrest, Hc1, Hc2, Hc3. cbn [fst snd] in *.
  split; [| by apply Hhome].
  specialize (Hrest eq_refl). subst rest.
  destruct (decide (_asset_dir d n ∈ files w)) as [Hdir|Hdir].
  { destruct (Hc1 Hdir) as [-> _]. rewrite elem_of_app, !elem_of_cons. auto 10. }
  destruct (decide (_asset_dir d (n +:+ ".tgz") ∈ files w)) as [Htgz|Htgz].
  { rewrite (Hc2 Hdir Htgz). rewrite elem_of_app, !elem_of_cons. auto 10. }
  specialize (Hc3 Hdir Htgz).
  destruct ((wget _ _ w).1) as [u|e]; [| by destruct Hc3].
  rewrite Hc3. rewrite elem_of_app, !elem_of_cons. auto 10.
Qed.



(** C4, as the code has it.  The name is taken by matching
    [.*/<name>.tgz] from the start of the URL, nothing being asked of what
    follows [.tgz]: for [https://example.org/dist/spark-3.2.1-bin-hadoop3.2.tgz]
    the derived name is exactly [spark-3.2.1-bin-hadoop3.2], the name of
    the directory every construction that returns has announced and left
    in [SPARK_HOME]; and construction fails with
    [Exception("Invalid Spark download URL ...")] for every URL that has
    no tarball segment at all. *)
Theorem C4_name_from_url (self : nat) (d : NessieDemo) (w : World) :
  (spark_tarball d = "https://example.org/dist/spark-3.2.1-bin-hadoop3.2.tgz" ->
   Re.match_tarball (spark_tarball d) = Some "spark-3.2.1-bin-hadoop3.2" /\
   forall w',
     NessieDemoSpark.__init__ self d w = (Return tt, w') ->
     EvPrint ("Using Spark in " +:+ _asset_dir d "spark-3.2.1-bin-hadoop3.2") ∈ trace w' /\
     (_asset_dir d "spark-3.2.1-bin-hadoop3.2" <> "" ->
      environ w' !! "SPARK_HOME" = Some (_asset_dir d "spark-3.2.1-bin-hadoop3.2")))
  /\
  ((forall P N R, ~ tarball_segment (spark_tarball d) P N R) ->
   exists w',
     NessieDemoSpark.__init__ self d w =
       (Raise (PyException ("Invalid Spark download URL " +:+ spark_tarball d)), w')).
Proof.
  split.
  - intros Hurl.
    assert (Hm : Re.match_tarball (spark_tarball d) = Some "spark-3.2.1-bin-hadoop3.2")
      by (by rewrite Hurl).
    split; [done |]. intros w' Hrun.
    destruct (init_returned self d w w' Hrun) as (n & Hn & Hp & He).
    rewrite Hm in Hn. by injection Hn as <-.
  - intros Hnone%match_tarball_None.
    eexists. by apply init_invalid_url.
Qed.

Lemma C4_name_from_url_witness :
  (EvPrint "Using Spark in /assets/spark-3.2.1-bin-hadoop3.2"
     ∈ trace (snd (NessieDemoSpark.__init__ 0 demo1 world0)))
  /\
  (exists w',
     NessieDemoSpark.__init__ 0 (demo_with 2 "https://example.org/dist/spark-3.2.1.zip") world0 =
       (Raise (PyException
                 "Invalid Spark download URL https://example.org/dist/spark-3.2.1.zip"), w')).
Proof.
  split.
  - assert (Hfst : fst (NessieDemoSpark.__init__ 0 demo1 world0) = Return tt) by by_vm.
    exact (proj1 (proj2 (proj1 (C4_name_from_url 0 demo1 world0) eq_refl) _
                    (run_returns _ _ _ Hfst))).
  - apply (proj2 (C4_name_from_url 0 (demo_with 2 "https://example.org/dist/spark-3.2.1.zip") world0)).
    apply match_tarball_None. reflexivity.
Defined.

(** C4, as the specification states it, fails: a URL that does not end
    in [.tgz] (it ends in [.zip]) on which construction succeeds. *)
Lemma C4_counterexample :
  ~ (forall url self w,
       ends_with ".tgz" url = false ->
       exists e w', NessieDemoSpark.__init__ self (demo_with 1 url) w = (Raise e, w')).
Proof.
  intros H.
  destruct (H "https://example.org/dist/spark-3.2.1-bin-hadoop3.2.tgz.zip" 0 world0 eq_refl)
    as (e & w' & Hrun).
  assert (Hfst : fst (NessieDemoSpark.__init__ 0
                        (demo_with 1 "https://example.org/dist/spark-3.2.1-bin-hadoop3.2.tgz.zip")
                        world0) = Return tt) by by_vm.
  rewrite Hrun in Hfst. discriminate Hfst.
Qed.


(** C7, as the code has it.  With the extracted directory present,
    construction issues neither the download nor the extraction; with
    only the archive present it issues the extraction alone; with
    neither, it issues the download and, when that returns, the
    extraction after it, while a download that raises ends construction
    with its exception and no extraction.  This holds however
    construction ends. *)
Theorem C7_fetch_what_is_missing (self : nat) (d : NessieDemo) (w : World) (n : string) :
  Re.match_tarball (spark_tarball d) = Some n ->
  let spark_dir := _asset_dir d n in
  let tgz := _asset_dir d (n +:+ ".tgz") in
  let get := EvWget (spark_tarball d) tgz in
  let tar := EvExecFail ["tar"; "-x"; "-C";
                         abspath (platform w) (os_path_join spark_dir ".."); "-f"; tgz] in
  let out := NessieDemoSpark.__init__ self d w in
  (spark_dir ∈ files w -> commands_since w (snd out) = []) /\
  (spark_dir ∉ files w -> tgz ∈ files w -> commands_since w (snd out) = [tar]) /\
  (spark_dir ∉ files w -> tgz ∉ files w ->
   match fst (wget (spark_tarball d) tgz w) with
   | Return _ => commands_since w (snd out) = [get; tar]
   | Raise e => commands_since w (snd out) = [get] /\ fst out = Raise e
   end).
Proof.
  intros Hm spark_dir tgz get tar out.
  destruct (init_run self d w n Hm)
    as (_ & _ & _ & _ & _ & _ & _ & _ & rest & Hrest & _ & Hc1 & Hc2 & Hc3).
  fold spark_dir tgz in Hc1, Hc2, Hc3. fold get tar out in Hc1, Hc2, Hc3.
  split_and!.
  - intros Hdir. destruct (Hc1 Hdir) as [Ht _].
    by rewrite (commands_since_app _ _ _ Ht).
  - intros Hdir Htgz. rewrite (commands_since_app _ _ _ (Hc2 Hdir Htgz)).
    by destruct Hrest as [-> | ->].
  - intros Hdir Htgz. specialize (Hc3 Hdir Htgz).
    destruct (fst (wget (spark_tarball d) tgz w)) as [u|e].
    + rewrite (commands_since_app _ _ _ Hc3). by destruct Hrest as [-> | ->].
    + destruct Hc3 as [Ho Ht]. by rewrite (commands_since_app _ _ _ Ht).
Qed.

Lemma C7_fetch_what_is_missing_witness :
  commands_since world0 (snd (NessieDemoSpark.__init__ 0 demo1 world0)) =
    [EvWget "https://example.org/dist/spark-3.2.1-bin-hadoop3.2.tgz"
            "/assets/spark-3.2.1-bin-hadoop3.2.tgz";
     EvExecFail ["tar"; "-x"; "-C"; "/assets/spark-3.2.1-bin-hadoop3.2/.."; "-f";
                 "/assets/spark-3.2.1-bin-hadoop3.2.tgz"]].
Proof.
  exact (proj2 (proj2 (C7_fetch_what_is_missing 0 demo1 world0 "spark-3.2.1-bin-hadoop3.2"
                         eq_refl))
           (not_elem_of_empty _) (not_elem_of_empty _)).
Defined.

(** C7, as the specification states it, fails where the download does:
    with neither the directory nor the archive in place and no network,
    the download is the only command issued, and no extraction follows. *)
Lemma C7_counterexample :
  ~ (forall self d w n,
       Re.match_tarball (spark_tarball d) = Some n ->
       _asset_dir d n ∉ files w ->
       _asset_dir d (n +:+ ".tgz") ∉ files w ->
       exists url dest argv,
         commands_since w (snd (NessieDemoSpark.__init__ self d w))
         = [EvWget url dest; EvExecFail argv]).
Proof.
  intros H.
  destruct (H 0 demo1 world_offline "spark-3.2.1-bin-hadoop3.2" eq_refl
              (not_elem_of_empty _) (not_elem_of_empty _))
    as (url & dest & argv & Hc).
  assert (Hone : commands_since world_offline
                   (snd (NessieDemoSpark.__init__ 0 demo1 world_offline))
                 = [EvWget "https://example.org/dist/spark-3.2.1-bin-hadoop3.2.tgz"
                           "/assets/spark-3.2.1-bin-hadoop3.2.tgz"]) by by_vm.
  rewrite Hone in Hc. discriminate Hc.
Qed.





(** ** The configuration *)

(** C8.  For every reference [r], the configuration built for it is the
    defaults of a new [SparkConf] with exactly the ten literal keys set:
    each of them has a value, no other key is touched, the reference key
    holds [r], the auth mode is [NONE] and caching is [false]. *)
Theorem C8_conf_sets_ten_keys (self : nat) (r : string) (d : NessieDemo) (w : World) :
  dict_of self w !! private "__demo" = Some (VDemo d) ->
  exists conf,
    NessieDemoSpark.__spark_conf self r w = (Return conf, w) /\
    length conf_keys = 10 /\ NoDup conf_keys /\
    (forall k, k ∈ conf_keys -> is_Some (conf !! k)) /\
    (forall k, k ∉ conf_keys -> conf !! k = spark_defaults (platform w) !! k) /\
    conf !! "spark.sql.catalog.nessie.ref" = Some r /\
    conf !! "spark.sql.catalog.nessie.auth_type" = Some "NONE" /\
    conf !! "spark.sql.catalog.nessie.cache-enabled" = Some "false".
Proof.
  intros Hd. unfold NessieDemoSpark.__spark_conf. py_red.
  run_demo d. run_demo d. run_demo d. py_red.
  eexists. split; [reflexivity |].
  split; [reflexivity |].
  split; [apply (bool_decide_unpack _); by vm_compute |].
  split_and!.
  - intros k Hk. unfold conf_keys in Hk.
    repeat (apply elem_of_cons in Hk as [-> | Hk]; [by simplify_map_eq |]).
    by apply elem_of_nil in Hk.
  - intros k Hk. unfold conf_keys in Hk.
    repeat (apply not_elem_of_cons in Hk as [? Hk]).
    by simplify_map_eq.
  - by simplify_map_eq.
  - by simplify_map_eq.
  - by simplify_map_eq.
Qed.

Lemma C8_conf_sets_ten_keys_witness :
  exists conf,
    NessieDemoSpark.__spark_conf 0 "feature-1" (snd (NessieDemoSpark.new demo1 world0))
      = (Return conf, snd (NessieDemoSpark.new demo1 world0)) /\
    conf !! "spark.sql.catalog.nessie.ref" = Some "feature-1" /\
    conf !! "spark.sql.catalog.nessie.auth_type" = Some "NONE" /\
    conf !! "spark.sql.catalog.nessie.cache-enabled" = Some "false".
Proof.
  destruct (C8_conf_sets_ten_keys 0 "feature-1" demo1
              (snd (NessieDemoSpark.new demo1 world0)) eq_refl)
    as (conf & Hrun & _ & _ & _ & _ & Href & Hauth & Hcache).
  exists conf. auto.
Defined.

(** ** Deriving a session for a reference *)

(** C5.  On a manager that holds no session, [session_for_ref] fails at
    the read of [self.__spark] (the [AttributeError] the specification
    calls [StateError]) and the world is left exactly as it was. *)
Theorem C5_no_base_session (self : nat) (r : string) (w : World) :
  dict_of self w !! private "__spark" = None ->
  NessieDemoSpark.session_for_ref self r w
  = (Raise (AttributeError "_NessieDemoSpark__spark"), w).
Proof.
  intros H. unfold NessieDemoSpark.session_for_ref.
  by rewrite (bind_raise _ _ _ _ _ (self__spark_absent _ _ H)).
Qed.

Lemma C5_no_base_session_witness :
  let w := snd (NessieDemoSpark.new demo1 world0) in
  fst (NessieDemoSpark.new demo1 world0) = Return 0 /\
  NessieDemoSpark.session_for_ref 0 "feature-1" w
  = (Raise (AttributeError "_NessieDemoSpark__spark"), w).
Proof.
  split; [reflexivity |].
  apply (C5_no_base_session 0 "feature-1" (snd (NessieDemoSpark.new demo1 world0))).
  reflexivity.
Defined.

(** ** Disposal *)

Lemma SparkSession_stop_run s w :
  SparkSession_stop s w =
    (Return tt,
     with_trace (trace w ++ session_stop_events s (spark w))
       (with_spark (session_stopped s (spark w)) w)).
Proof.
  unfold SparkSession_stop, session_stop_events, session_stopped. py_red.
  destruct (sessions (spark w) !! s) as [o|] eqn:Ho; py_red.
  - unfold SparkContext_stop. py_red. by rewrite <- app_assoc.
  - reflexivity.
Qed.

(** With a session held, [dispose] stops the session, fails on
    [delattr(self, "__spark")] (the attribute is stored under its mangled
    name), skips the rest of the first block, stops the parent handle and
    fails again on [delattr(self, "__demo")]: no attribute is removed and
    the gateway is not touched. *)
Lemma dispose_with_session self s d w :
  dict_of self w !! private "__spark" = Some (VSession s) ->
  dict_of self w !! private "__demo" = Some (VDemo d) ->
  dict_of self w !! "__spark" = None ->
  dict_of self w !! "__demo" = None ->
  NessieDemoSpark.dispose self w =
    (Return tt,
     with_trace
       (trace w ++ [EvPrint "Stopping SparkSession ..."] ++ session_stop_events s (spark w)
        ++ [EvDemoStop (demo_id d)])%list
       (with_spark (session_stopped s (spark w)) w)).
Proof.
  intros Hs Hd Hu1 Hu2. unfold NessieDemoSpark.dispose.
  eapply bind_step.
  { eapply try_except_caught.
    run_spark s. py_red.
    eapply bind_step; [apply SparkSession_stop_run |].
    apply bind_raise, delattr_absent. dict_solve. }
  cbv beta.
  eapply try_except_caught.
  run_demo d. py_red.
  rewrite delattr_absent by dict_solve.
  f_equal. unfold with_trace, with_spark; py_cbn. by rewrite <- !app_assoc.
Qed.

Lemma dispose_without_session self d w :
  dict_of self w !! private "__spark" = None ->
  dict_of self w !! private "__demo" = Some (VDemo d) ->
  dict_of self w !! "__demo" = None ->
  NessieDemoSpark.dispose self w =
    (Return tt, with_trace (trace w ++ [EvDemoStop (demo_id d)]) w).
Proof.
  intros Hs Hd Hu. unfold NessieDemoSpark.dispose.
  eapply bind_step.
  { eapply try_except_caught. apply bind_raise, self__spark_absent, Hs. }
  cbv beta.
  eapply try_except_caught.
  run_demo d. py_red.
  by rewrite delattr_absent by dict_solve.
Qed.

Section AttrOnly.

Context {A B : Type}.

Lemma attr_only_bind (m : M A) (k : A -> M B) :
  attr_only m -> (forall a, attr_only (k a)) -> attr_only (bind m k).
Proof.
  intros Hm Hk w e w' [H | (a & w1 & _ & H)]%bind_Raise_inv; [by eapply Hm | by eapply Hk].
Qed.

Lemma attr_only_total (m : M A) :
  (forall w, exists a w', m w = (Return a, w')) -> attr_only m.
Proof. intros Hm w e w' H. destruct (Hm w) as (a & w1 & Hw). congruence. Qed.

Lemma attr_only_raise name : attr_only (raise (A := A) (AttributeError name)).
Proof. intros w e w' [= <- _]. by eexists. Qed.

Lemma try_except_never_raises (body : M A) w :
  attr_only body -> exists w', try_except_AttributeError body w = (Return tt, w').
Proof.
  intros Hb. unfold try_except_AttributeError.
  destruct (body w) as [[a|e] w'] eqn:Hw; [by eexists |].
  destruct (Hb _ _ _ Hw) as [name ->]. by eexists.
Qed.

End AttrOnly.

Lemma attr_only_getattr self name : attr_only (getattr self name).
Proof.
  intros w e w'. unfold getattr.
  destruct (dict_of self w !! name); intros [= <- _]. by eexists.
Qed.

Lemma attr_only_delattr self name : attr_only (delattr self name).
Proof.
  intros w e w'. unfold delattr.
  destruct (dict_of self w !! name); intros [= <- _]. by eexists.
Qed.

Ltac attr_only_step :=
  first
    [ apply attr_only_bind; [| intros ?]
    | apply attr_only_getattr
    | apply attr_only_delattr
    | apply attr_only_raise
    | apply attr_only_total; intros ?; by do 2 eexists
    | match goal with |- attr_only (match ?x with _ => _ end) => destruct x end ].

(** Where the stop calls come back, [dispose] returns from every world:
    whatever else its two blocks raise is an [AttributeError], which they
    swallow. *)
Lemma dispose_returns self w :
  exists w', NessieDemoSpark.dispose self w = (Return tt, w').
Proof.
  unfold NessieDemoSpark.dispose.
  destruct (try_except_never_raises
              (spark_sess <- NessieDemoSpark.self__spark self;;
               print "Stopping SparkSession ...";;
               SparkSession_stop spark_sess;;
               delattr self "__spark";;
               delattr self "__spark_context";;
               delattr self "__jvm";;
               sp <- get_spark;;
               match active_spark_context sp with
               | Some c => SparkContext_stop c
               | None => raise (AttributeError "stop")
               end;;
               sp <- get_spark;;
               match gateway sp with
               | Some port => emit (EvGatewayShutdown port)
               | None => raise (AttributeError "shutdown")
               end;;
               modify_spark (with_gateway None);;
               modify_spark (with_jvm None)) w) as [w1 H1].
  { unfold NessieDemoSpark.self__spark, as_session. repeat attr_only_step. }
  rewrite (bind_ok _ _ _ _ _ H1).
  apply try_except_never_raises.
  unfold NessieDemoSpark.self__demo, as_demo. repeat attr_only_step.
Qed.

(** ** Creating the session *)

(** [getOrCreate] either returns a live session that carries every
    option of [conf], having changed nothing of this module's state, or
    fails to launch the gateway and has changed nothing at all. *)
Lemma builder_run conf w :
  (exists s o w1,
      builder_getOrCreate conf w = (Return s, w1) /\
      sessions (spark w1) !! s = Some o /\
      (forall k v, conf !! k = Some v -> ss_conf o !! k = Some v) /\
      heap w1 = heap w /\ registry w1 = registry w /\ platform w1 = platform w /\
      trace w `prefix_of` trace w1 /\
      (gateway (spark w1) = None -> ~ gateway_up (spark w)))
  \/ (builder_getOrCreate conf w =
        (Raise launch_failure, w)
      /\ launch_gateway (platform w) = None).
Proof.
  unfold builder_getOrCreate. py_red.
  destruct (instantiated_session (spark w) ≫= _) as [[s o]|] eqn:Hi.
  - left. py_red. eexists s, _, _. split; [reflexivity |]. py_cbn.
    split; [apply lookup_insert_eq |]. cbn [ss_conf].
    split; [intros k v Hk; by apply lookup_union_Some_l |].
    split_and!; try done.
    intros Hg Hup. destruct (Hup Hg) as [Hinst _]. rewrite Hinst in Hi. done.
  - unfold SparkContext_getOrCreate. py_red.
    destruct (active_spark_context (spark w)) as [c|] eqn:Ha.
    + left. py_red. eexists _, _, _. split; [reflexivity |]. py_cbn.
      split; [apply lookup_insert_eq |]. cbn [ss_conf].
      split; [intros k v Hk; by apply lookup_union_Some_l |].
      split_and!; try done.
      intros Hg Hup. destruct (Hup Hg) as [_ Hact]. congruence.
    + unfold ensure_gateway. py_red.
      destruct (gateway (spark w)) as [port|] eqn:Hg.
      * left. py_red. eexists _, _, _. split; [reflexivity |]. py_cbn.
        split; [apply lookup_insert_eq |]. cbn [ss_conf].
        split; [intros k v Hk; by apply lookup_union_Some_l |].
        split_and!; try done. intros Hg'. congruence.
      * py_red. destruct (launch_gateway (platform w)) as [port|] eqn:Hl.
        -- left. py_red. eexists _, _, _. split; [reflexivity |]. py_cbn.
           split; [apply lookup_insert_eq |]. cbn [ss_conf].
           split; [intros k v Hk; by apply lookup_union_Some_l |].
           split_and!; try done. by apply prefix_app_r.
        -- by right.
Qed.

Lemma spark_conf_ref self r d w :
  dict_of self w !! private "__demo" = Some (VDemo d) ->
  exists conf,
    NessieDemoSpark.__spark_conf self r w = (Return conf, w) /\
    conf !! "spark.sql.catalog.nessie.ref" = Some r.
Proof.
  intros Hd. unfold NessieDemoSpark.__spark_conf. py_red.
  run_demo d. run_demo d. run_demo d. py_red.
  eexists. split; [reflexivity |]. by simplify_map_eq.
Qed.

Lemma jvm_for_iceberg_run self c w :
  NessieDemoSpark.__jvm_for_iceberg self c w =
    match gateway (spark w) with
    | Some port => (Return (VJvm port), with_trace (trace w ++ iceberg_imports port) w)
    | None => (Raise (AttributeError "jvm"), w)
    end.
Proof.
  unfold NessieDemoSpark.__jvm_for_iceberg. py_red.
  destruct (gateway (spark w)) as [port|]; [| done].
  py_red. unfold iceberg_imports. f_equal. unfold with_trace. f_equal.
  by rewrite <- !app_assoc.
Qed.

(** The part of [get_or_create_spark_context] after the session is there. *)
Lemma goc_tail self s o w1 :
  sessions (spark w1) !! s = Some o ->
    (setattr self (private "__spark") (VSession s) ;;
    s <- NessieDemoSpark.self__spark self ;;
    sc <- sparkContext s ;;
    setattr self (private "__spark_context") (VContext sc) ;;
    sc <- NessieDemoSpark.self__spark_context self ;;
    j <- NessieDemoSpark.__jvm_for_iceberg self sc ;;
    setattr self (private "__jvm") j ;;
    print "Created SparkConf, SparkSession, SparkContext" ;;
    r1 <- getattr self (private "__spark") ;;
    r2 <- getattr self (private "__spark_context") ;;
    r3 <- getattr self (private "__jvm") ;;
    ret (r1, r2, r3))%py w1 =
    match gateway (spark w1) with
    | Some port =>
        (Return (VSession s, VContext (ss_context o), VJvm port),
         with_trace (trace w1 ++ iceberg_imports port
                     ++ [EvPrint "Created SparkConf, SparkSession, SparkContext"])%list
           (with_heap
              (<[self := <[private "__jvm" := VJvm port]>
                          (<[private "__spark_context" := VContext (ss_context o)]>
                             (<[private "__spark" := VSession s]> (dict_of self w1)))]>
                 (heap w1)) w1))
    | None =>
        (Raise (AttributeError "jvm"),
         with_heap
           (<[self := <[private "__spark_context" := VContext (ss_context o)]>
                        (<[private "__spark" := VSession s]> (dict_of self w1))]>
              (heap w1)) w1)
    end.
Proof.
  intros Hs. py_red.
  run_spark s. unfold sparkContext. py_red. rewrite Hs. py_red.
  run_spark_context (ss_context o).
  rewrite (bind_assoc (NessieDemoSpark.__jvm_for_iceberg _ _)) || idtac.
  match goal with |- bind (NessieDemoSpark.__jvm_for_iceberg ?a ?b) ?k ?w = _ =>
    unfold bind at 1; rewrite (jvm_for_iceberg_run a b w) end.
  py_cbn.
  destruct (gateway (spark w1)) as [port|] eqn:Hg.
  - py_red.
    run_getattr (VSession s). run_getattr (VContext (ss_context o)). run_getattr (VJvm port).
    py_red. f_equal. unfold with_trace, with_heap, dict_of. py_cbn.
    rewrite !lookup_insert_eq. cbn [default from_option id].
    rewrite !insert_insert_eq. by rewrite <- !app_assoc.
  - f_equal. unfold with_heap, dict_of. py_cbn.
    rewrite !lookup_insert_eq. cbn [default from_option id].
    by rewrite !insert_insert_eq.
Qed.

Lemma goc_run self r d w :
  dict_of self w !! private "__demo" = Some (VDemo d) ->
  (exists s o port w1,
     NessieDemoSpark.get_or_create_spark_context self r w
       = (Return (VSession s, VContext (ss_context o), VJvm port), w1) /\
     sessions (spark w1) !! s = Some o /\
     ss_conf o !! "spark.sql.catalog.nessie.ref" = Some r /\
     gateway (spark w1) = Some port /\
     heap w1 =
       <[self := <[private "__jvm" := VJvm port]>
                   (<[private "__spark_context" := VContext (ss_context o)]>
                      (<[private "__spark" := VSession s]> (dict_of self w)))]> (heap w) /\
     registry w1 = registry w /\
     trace w `prefix_of` trace w1)
  \/ (exists w1,
       NessieDemoSpark.get_or_create_spark_context self r w = (Raise launch_failure, w1) /\
       heap w1 = heap w /\ registry w1 = registry w /\
       launch_gateway (platform w) = None)
  \/ (exists w1,
       NessieDemoSpark.get_or_create_spark_context self r w = (Raise (AttributeError "jvm"), w1) /\
       registry w1 = registry w /\
       ~ gateway_up (spark w)).
Proof.
  intros Hd. unfold NessieDemoSpark.get_or_create_spark_context. py_red.
  set (w0 := with_trace _ w).
  assert (Hd0 : dict_of self w0 !! private "__demo" = Some (VDemo d)) by done.
  destruct (spark_conf_ref self r d w0 Hd0) as (conf & Hconf & Href).
  rewrite (bind_ok _ _ _ _ _ Hconf).
  destruct (builder_run conf w0) as
    [(s & o & w1 & Hb & Hs & Hc & Hh & Hr & Hp & Ht & Hg) | [Hb Hl]].
  2:{ right; left. rewrite (bind_raise _ _ _ _ _ Hb). by eexists. }
  rewrite (bind_ok _ _ _ _ _ Hb).
  rewrite (goc_tail self s o w1 Hs).
  destruct (gateway (spark w1)) as [port|] eqn:Hgw.
  - left. eexists s, o, port, _. split; [reflexivity |]. py_cbn.
    split; [done |]. split; [by apply Hc |]. split; [done |].
    split; [unfold dict_of; by rewrite Hh |].
    split; [by rewrite Hr |].
    etrans; [| apply prefix_app_r; exact Ht]. subst w0. py_cbn. by apply prefix_app_r.
  - right; right. eexists. split; [reflexivity |]. py_cbn.
    split; [by rewrite Hr |]. by apply Hg.
Qed.

(** C2, on the code.  [dispose] on a manager that holds a session
    returns with every instance attribute still in place and with
    [SparkContext._gateway] and [SparkContext._jvm] as they were: the
    [delattr] calls name the attributes without the class prefix, fail,
    and the failure is swallowed before the gateway is reached. *)
Theorem C2_dispose_clears_nothing (self s : nat) (d : NessieDemo) (w : World) :
  dict_of self w !! private "__spark" = Some (VSession s) ->
  dict_of self w !! private "__demo" = Some (VDemo d) ->
  dict_of self w !! "__spark" = None ->
  dict_of self w !! "__demo" = None ->
  exists w',
    NessieDemoSpark.dispose self w = (Return tt, w') /\
    heap w' = heap w /\
    gateway (spark w') = gateway (spark w) /\
    jvm (spark w') = jvm (spark w) /\
    trace w' =
      (trace w ++ [EvPrint "Stopping SparkSession ..."] ++ session_stop_events s (spark w)
       ++ [EvDemoStop (demo_id d)])%list.
Proof.
  intros Hs Hd Hu1 Hu2. rewrite (dispose_with_session self s d w) by done.
  eexists. split; [reflexivity |]. py_cbn. unfold session_stopped.
  by destruct (sessions (spark w) !! s).
Qed.

Lemma C2_dispose_clears_nothing_witness :
  exists w',
    NessieDemoSpark.dispose 0 world1 = (Return tt, w') /\
    dict_of 0 w' !! "_NessieDemoSpark__spark" = Some (VSession 0) /\
    dict_of 0 w' !! "_NessieDemoSpark__spark_context" = Some (VContext 0) /\
    dict_of 0 w' !! "_NessieDemoSpark__jvm" = Some (VJvm 7) /\
    dict_of 0 w' !! "_NessieDemoSpark__demo" = Some (VDemo demo1) /\
    gateway (spark w') = Some 7 /\
    jvm (spark w') = Some 7.
Proof.
  assert (H1 : dict_of 0 world1 !! private "__spark" = Some (VSession 0))
    by (vm_compute; reflexivity).
  assert (H2 : dict_of 0 world1 !! private "__demo" = Some (VDemo demo1))
    by (vm_compute; reflexivity).
  assert (H3 : dict_of 0 world1 !! "__spark" = None) by (vm_compute; reflexivity).
  assert (H4 : dict_of 0 world1 !! "__demo" = None) by (vm_compute; reflexivity).
  destruct (C2_dispose_clears_nothing 0 0 demo1 world1 H1 H2 H3 H4)
    as (w' & Hrun & Hh & Hg & Hj & _).
  exists w'. split; [exact Hrun |].
  unfold dict_of. rewrite Hh, Hg, Hj.
  vm_compute. repeat split.
Defined.

(** C1, on the code.  Two calls of [dispose] in succession both return,
    but the second is not a no-op: nothing was cleared by the first, so
    the second stops the parent handle again and, when a session is held,
    prints and stops the session again. *)
Theorem C1_second_dispose_repeats (self : nat) (d : NessieDemo) (w : World) :
  dict_of self w !! private "__demo" = Some (VDemo d) ->
  dict_of self w !! "__spark" = None ->
  dict_of self w !! "__demo" = None ->
  (dict_of self w !! private "__spark" = None ->
   exists w1 w2,
     NessieDemoSpark.dispose self w = (Return tt, w1) /\
     NessieDemoSpark.dispose self w1 = (Return tt, w2) /\
     trace w2 = (trace w1 ++ [EvDemoStop (demo_id d)])%list)
  /\
  (forall s,
     dict_of self w !! private "__spark" = Some (VSession s) ->
     exists w1 w2,
       NessieDemoSpark.dispose self w = (Return tt, w1) /\
       NessieDemoSpark.dispose self w1 = (Return tt, w2) /\
       trace w2 =
         (trace w1 ++ [EvPrint "Stopping SparkSession ..."]
          ++ session_stop_events s (spark w1) ++ [EvDemoStop (demo_id d)])%list).
Proof.
  intros Hd Hu1 Hu2. split.
  - intros Hs. do 2 eexists.
    split; [by apply dispose_without_session |].
    split; [by apply dispose_without_session |]. done.
  - intros s Hs. do 2 eexists.
    split; [by apply dispose_with_session |].
    split; [by apply dispose_with_session |]. done.
Qed.

Lemma C1_second_dispose_repeats_witness :
  (exists w1 w2,
     NessieDemoSpark.dispose 0 (snd (NessieDemoSpark.new demo1 world0)) = (Return tt, w1) /\
     NessieDemoSpark.dispose 0 w1 = (Return tt, w2) /\
     trace w2 = (trace w1 ++ [EvDemoStop 1])%list)
  /\
  (exists w1 w2,
     NessieDemoSpark.dispose 0 world1 = (Return tt, w1) /\
     NessieDemoSpark.dispose 0 w1 = (Return tt, w2) /\
     trace w2 =
       (trace w1 ++ [EvPrint "Stopping SparkSession ..."]
        ++ session_stop_events 0 (spark w1) ++ [EvDemoStop 1])%list).
Proof.
  split.
  - assert (H2 : dict_of 0 (snd (NessieDemoSpark.new demo1 world0)) !! private "__demo"
                 = Some (VDemo demo1)) by (vm_compute; reflexivity).
    assert (H3 : dict_of 0 (snd (NessieDemoSpark.new demo1 world0)) !! "__spark" = None)
      by (vm_compute; reflexivity).
    assert (H4 : dict_of 0 (snd (NessieDemoSpark.new demo1 world0)) !! "__demo" = None)
      by (vm_compute; reflexivity).
    apply (proj1 (C1_second_dispose_repeats 0 demo1 _ H2 H3 H4)).
    vm_compute; reflexivity.
  - assert (H1 : dict_of 0 world1 !! private "__spark" = Some (VSession 0))
      by (vm_compute; reflexivity).
    assert (H2 : dict_of 0 world1 !! private "__demo" = Some (VDemo demo1))
      by (vm_compute; reflexivity).
    assert (H3 : dict_of 0 world1 !! "__spark" = None) by (vm_compute; reflexivity).
    assert (H4 : dict_of 0 world1 !! "__demo" = None) by (vm_compute; reflexivity).
    exact (proj2 (C1_second_dispose_repeats 0 demo1 world1 H2 H3 H4) 0 H1).
Defined.

(** ** Frames *)


Section Respects.

Context (R : relation World) `{!PreOrder R} {A B : Type}.

Lemma respects_bind (m : M A) (k : A -> M B) :
  respects R m -> (forall a, respects R (k a)) -> respects R (bind m k).
Proof.
  intros Hm Hk w. unfold bind. specialize (Hm w).
  destruct (m w) as [[a|e] w1]; simpl in *; [| done].
  etrans; [exact Hm | apply Hk].
Qed.

Lemma respects_try (body : M A) :
  respects R body -> respects R (try_except_AttributeError body).
Proof.
  intros Hb w. unfold try_except_AttributeError. specialize (Hb w).
  by destruct (body w) as [[a|[]] w1].
Qed.

Lemma respects_same (m : M A) :
  (forall w, snd (m w) = w) -> respects R m.
Proof. intros Hm w. by rewrite Hm. Qed.

End Respects.






Lemma new_run d w n :
  Re.match_tarball (spark_tarball d) = Some n ->
  let out := NessieDemoSpark.new d w in
  heap out.2 = <[fresh (dom (heap w)) := {[private "__demo" := VDemo d]}]> (heap w) /\
  registry out.2 = registry w /\
  spark out.2 = spark w /\
  platform out.2 = platform w /\
  (trace w `prefix_of` trace out.2) /\
  (forall m, out.1 = Return m -> m = fresh (dom (heap w))).
Proof.
  intros Hm out. subst out. unfold NessieDemoSpark.new. py_red.
  set (self := fresh (dom (heap w))).
  destruct (init_run self d (with_heap (<[self := ∅]> (heap w)) w) n Hm)
    as (Hh & Hr & Hs & Hp & Ht & _).
  rewrite bind_ret_run. cbn [fst snd].
  split.
  { rewrite Hh. unfold dict_of. py_cbn. rewrite lookup_insert_eq.
    cbn [default from_option id]. by rewrite insert_insert_eq, insert_empty. }
  split_and!; [done .. |].
  intros m. by destruct (fst _); intros [= <-].
Qed.

(** A [NessieDemoSpark(demo)] that returns has made a new instance that
    holds the parent handle and nothing else. *)
Lemma new_returned d w m w' :
  NessieDemoSpark.new d w = (Return m, w') ->
  m = fresh (dom (heap w)) /\
  heap w' = <[m := {[private "__demo" := VDemo d]}]> (heap w) /\
  registry w' = registry w /\
  spark w' = spark w /\
  platform w' = platform w /\
  (trace w `prefix_of` trace w').
Proof.
  intros Hrun.
  destruct (Re.match_tarball (spark_tarball d)) as [n|] eqn:Hm.
  - destruct (new_run d w n Hm) as (Hh & Hr & Hs & Hp & Ht & Hret).
    rewrite Hrun in Hh, Hr, Hs, Hp, Ht, Hret. cbn [fst snd] in *.
    pose proof (Hret m eq_refl) as ->. done.
  - unfold NessieDemoSpark.new in Hrun. py_red_in Hrun.
    by rewrite (bind_raise _ _ _ _ _ (init_invalid_url _ _ _ Hm)) in Hrun.
Qed.


(** ** The registry *)

(** A [spark_dispose] that returns has emptied the registry and done
    nothing after the disposal. *)
Lemma spark_dispose_returned w w1 :
  spark_dispose w = (Return tt, w1) ->
  registry w1 = None /\
  (registry w = None -> w1 = w) /\
  (forall m, registry w = Some m ->
     exists w0, NessieDemoSpark.dispose m w = (Return tt, w0) /\ w1 = with_registry None w0).
Proof.
  unfold spark_dispose. py_red. destruct (registry w) as [m|] eqn:Hreg.
  - intros ([] & w0 & Hd & Hset)%bind_Return_inv. py_cbn_in Hset.
    injection Hset as <-. split_and!; [done .. |].
    intros m' [= <-]. by exists w0.
  - intros [= <-]. by split_and!.
Qed.




(** C10.  [spark_for_demo] registers the new manager before it asks for
    the session and restores nothing: when the session creation raises,
    the call raises the same exception and the registry is left holding
    the new manager, which has its parent handle and no session. *)
Theorem C10_no_rollback (d : NessieDemo) (r : string) (w w1 w2 w3 : World)
    (m : nat) (e : PyExc) :
  spark_dispose w = (Return tt, w1) ->
  NessieDemoSpark.new d w1 = (Return m, w2) ->
  gateway_up (spark w2) ->
  NessieDemoSpark.get_or_create_spark_context m r (with_registry (Some m) w2) = (Raise e, w3) ->
  spark_for_demo d r w = (Raise e, w3) /\
  registry w3 = Some m /\
  dict_of m w3 = {[private "__demo" := VDemo d]}.
Proof.
  intros Hsd Hn Hup Hg.
  split.
  { unfold spark_for_demo.
    rewrite (bind_ok _ _ _ _ _ Hsd), (bind_ok _ _ _ _ _ Hn). py_red.
    by rewrite (bind_raise _ _ _ _ _ Hg). }
  destruct (new_returned d w1 m w2 Hn) as (_ & Hh & _).
  assert (Hdm : dict_of m (with_registry (Some m) w2) = {[private "__demo" := VDemo d]}).
  { unfold dict_of. py_cbn. rewrite Hh. by simplify_map_eq. }
  assert (Hdm' : dict_of m (with_registry (Some m) w2) !! private "__demo" = Some (VDemo d)).
  { rewrite Hdm. by simplify_map_eq. }
  destruct (goc_run m r d _ Hdm') as
    [(s & o & port & w3' & Hg' & _)
    | [(w3' & Hg' & Hh3 & Hr3 & _) | (w3' & Hg' & _ & Hnot)]]; rewrite Hg' in Hg.
  - done.
  - injection Hg as <- <-. split; [done |].
    unfold dict_of in *. by rewrite Hh3.
  - by destruct Hnot.
Qed.

Lemma C10_no_rollback_witness :
  exists w3,
    spark_for_demo demo1 "main" world_no_jvm = (Raise launch_failure, w3) /\
    registry w3 = Some 0 /\
    dict_of 0 w3 = {[private "__demo" := VDemo demo1]}.
Proof.
  assert (Hsd : fst (spark_dispose world_no_jvm) = Return tt) by by_vm.
  assert (Hn : fst (NessieDemoSpark.new demo1 (snd (spark_dispose world_no_jvm))) = Return 0)
    by by_vm.
  assert (Hup : gateway_up
                  (spark (snd (NessieDemoSpark.new demo1 (snd (spark_dispose world_no_jvm)))))).
  { intros _. split; by_vm. }
  assert (Hg : fst (NessieDemoSpark.get_or_create_spark_context 0 "main"
                      (with_registry (Some 0)
                         (snd (NessieDemoSpark.new demo1 (snd (spark_dispose world_no_jvm))))))
               = Raise launch_failure) by by_vm.
  eexists.
  exact (C10_no_rollback demo1 "main" _ _ _ _ 0 _
           (run_returns _ _ _ Hsd) (run_returns _ _ _ Hn) Hup (run_raises _ _ _ Hg)).
Defined.

(** ** Sessions per reference *)

(** C6.  After the base session was created for [r0], [session_for_ref r]
    returns a session that is another object than the base, runs on the
    same context, and whose configuration is that of a new session with
    the one key [spark.sql.catalog.nessie.ref] set to [r]; the base
    session is the very same object as before, with its reference [r0],
    and no other session, attribute or registry entry is touched. *)
Theorem C6_session_for_ref (self : nat) (d : NessieDemo) (r0 r : string) (w : World)
    (v1 v2 v3 : Value) (w1 : World) :
  dict_of self w !! private "__demo" = Some (VDemo d) ->
  NessieDemoSpark.get_or_create_spark_context self r0 w = (Return (v1, v2, v3), w1) ->
  exists s c s' base derived w2,
    v1 = VSession s /\ v2 = VContext c /\
    NessieDemoSpark.session_for_ref self r w1 = (Return s', w2) /\
    s' <> s /\
    sessions (spark w1) !! s = Some base /\
    sessions (spark w2) !! s = Some base /\
    ss_context base = c /\
    ss_conf base !! "spark.sql.catalog.nessie.ref" = Some r0 /\
    sessions (spark w2) !! s' = Some derived /\
    ss_context derived = c /\
    ss_conf derived =
      <["spark.sql.catalog.nessie.ref" := r]> (default ∅ (contexts (spark w1) !! c)) /\
    (forall t, t <> s' -> sessions (spark w2) !! t = sessions (spark w1) !! t) /\
    heap w2 = heap w1 /\ registry w2 = registry w1 /\ trace w2 = trace w1.
Proof.
  intros Hd Hrun.
  destruct (goc_run self r0 d w Hd) as
    [(s & o & port & w1' & Hg & Hs & Href & _ & Hh & _ & _)
    | [(w1' & Hg & _) | (w1' & Hg & _)]]; rewrite Hg in Hrun; [| done ..].
  injection Hrun as <- <- <- <-.
  assert (Hsp : dict_of self w1' !! private "__spark" = Some (VSession s)).
  { unfold dict_of. rewrite Hh. by simplify_map_eq. }
  set (s' := fresh (dom (sessions (spark w1')))).
  assert (Hne : s' <> s).
  { intros Heq. apply (is_fresh (dom (sessions (spark w1')))).
    fold s'. rewrite Heq. by apply elem_of_dom. }
  exists s, (ss_context o), s', o.
  eexists. eexists.
  split; [done |]. split; [done |].
  split.
  { unfold NessieDemoSpark.session_for_ref.
    rewrite (bind_ok _ _ _ _ _ (self__spark_ok _ _ _ Hsp)).
    unfold newSession. py_red. rewrite Hs. py_red.
    unfold session_conf_set. py_red. fold s'.
    rewrite lookup_insert_eq. py_red. reflexivity. }
  py_cbn. cbn [ss_context ss_conf].
  split; [done |]. split; [done |].
  split; [by rewrite !lookup_insert_ne |].
  split; [done |]. split; [done |].
  split; [by rewrite lookup_insert_eq |].
  split; [done |]. split; [done |].
  split; [intros t Ht; by rewrite !lookup_insert_ne |].
  done.
Qed.

Lemma C6_session_for_ref_witness :
  let w1 := snd (NessieDemoSpark.get_or_create_spark_context 0 "main" world_new) in
  exists s' base derived w2,
    NessieDemoSpark.session_for_ref 0 "feature-1" w1 = (Return s', w2) /\
    s' <> 0 /\
    sessions (spark w2) !! 0 = Some base /\
    ss_conf base !! "spark.sql.catalog.nessie.ref" = Some "main" /\
    sessions (spark w2) !! s' = Some derived /\
    ss_conf derived !! "spark.sql.catalog.nessie.ref" = Some "feature-1" /\
    ss_context derived = ss_context base.
Proof.
  assert (Hd : dict_of 0 world_new !! private "__demo" = Some (VDemo demo1)) by by_vm.
  assert (Hfst : fst (NessieDemoSpark.get_or_create_spark_context 0 "main" world_new)
                 = Return (VSession 0, VContext 0, VJvm 7)) by by_vm.
  destruct (C6_session_for_ref 0 demo1 "main" "feature-1" world_new _ _ _ _ Hd
              (run_returns _ _ _ Hfst))
    as (s & c & s' & base & derived & w2 & E1 & _ & Hrun2 & Hne & _ & Hb & Hc & Hr0
        & Hdv & Hc2 & Hconf & _).
  injection E1 as <-.
  cbv zeta. exists s', base, derived, w2.
  split; [exact Hrun2 |]. split; [exact Hne |]. split; [exact Hb |].
  split; [exact Hr0 |]. split; [exact Hdv |].
  split; [rewrite Hconf; apply lookup_insert_eq |].
  by rewrite Hc, Hc2.
Defined.


(** * Further properties of the code *)

(** ** Disposal is confined *)

Global Instance kept_by_dispose_preorder : PreOrder kept_by_dispose.
Proof.
  split.
  - intros w. by unfold kept_by_dispose.
  - intros w1 w2 w3 (Hr1 & He1 & Hf1 & Hp1 & Hs1 & Hc1 & Hd1 & Ht1)
      (Hr2 & He2 & Hf2 & Hp2 & Hs2 & Hc2 & Hd2 & Ht2).
    unfold kept_by_dispose.
    rewrite Hr2, He2, Hf2, Hp2, Hs2, Hc2.
    split_and!; [done .. | by etrans | by etrans].
Qed.

Lemma kept_emit e : respects kept_by_dispose (emit e).
Proof.
  intros w. unfold kept_by_dispose, emit. cbn [snd]. py_cbn.
  split_and!; try done. by apply prefix_app_r.
Qed.

Lemma kept_delattr self name : respects kept_by_dispose (delattr self name).
Proof.
  intros w. unfold delattr. destruct (dict_of self w !! name); [| done].
  unfold kept_by_dispose. cbn [snd]. py_cbn. split_and!; try done.
  rewrite dom_insert_L. set_solver.
Qed.

Lemma kept_getattr self name : respects kept_by_dispose (getattr self name).
Proof. intros w. unfold getattr. by destruct (dict_of self w !! name). Qed.

Lemma kept_modify_spark f :
  (forall sp, sessions (f sp) = sessions sp /\ contexts (f sp) = contexts sp) ->
  respects kept_by_dispose (modify_spark f).
Proof.
  intros Hf w. unfold kept_by_dispose, modify_spark. cbn [snd]. py_cbn.
  destruct (Hf (spark w)) as [-> ->]. by split_and!.
Qed.

Ltac kept_step :=
  first
    [ apply respects_try
    | apply respects_bind; [apply kept_by_dispose_preorder | | intros ?]
    | apply kept_delattr
    | apply kept_getattr
    | apply kept_emit
    | apply kept_modify_spark; by intros []
    | apply respects_same; [apply kept_by_dispose_preorder |]; intros ?; reflexivity
    | match goal with |- respects _ (match ?x with _ => _ end) => destruct x end ].

Lemma dispose_kept self : respects kept_by_dispose (NessieDemoSpark.dispose self).
Proof.
  unfold NessieDemoSpark.dispose, NessieDemoSpark.self__spark, NessieDemoSpark.self__demo,
    as_session, as_demo, SparkSession_stop, SparkContext_stop, demo_stop, print.
  repeat kept_step.
Qed.

Lemma try_except_keeps_AttributeError {A} (body : M A) w name :
  fst (try_except_AttributeError body w) <> Raise (AttributeError name).
Proof. unfold try_except_AttributeError. by destruct (body w) as [[a|[]] w']. Qed.

(** X1.  However [dispose] ends, it lets no [AttributeError] out, both of its
    blocks catching that class, and it is confined: it does not touch the
    registry, the environment or the file system, removes no instance
    and no pyspark object, and only adds to the trace. *)
Theorem X1_dispose_confined (self : nat) (w : World) :
  let out := NessieDemoSpark.dispose self w in
  (forall name, fst out <> Raise (AttributeError name)) /\
  registry (snd out) = registry w /\
  environ (snd out) = environ w /\
  files (snd out) = files w /\
  sessions (spark (snd out)) = sessions (spark w) /\
  dom (heap w) ⊆ dom (heap (snd out)) /\
  (trace w `prefix_of` trace (snd out)).
Proof.
  cbv zeta. split.
  - intros name. unfold NessieDemoSpark.dispose, bind.
    match goal with |- context [try_except_AttributeError ?b w] =>
      pose proof (try_except_keeps_AttributeError b w name) as H1;
      destruct (try_except_AttributeError b w) as [[u|e] w1]
    end; [apply try_except_keeps_AttributeError | exact H1].
  - destruct (dispose_kept self w) as (? & ? & ? & ? & ? & ? & ? & ?). done.
Qed.

Lemma X1_dispose_confined_witness :
  registry (snd (NessieDemoSpark.dispose 0 world1)) = registry world1 /\
  environ (snd (NessieDemoSpark.dispose 0 world1)) = environ world1.
Proof.
  split.
  - exact (proj1 (proj2 (X1_dispose_confined 0 world1))).
  - exact (proj1 (proj2 (proj2 (X1_dispose_confined 0 world1)))).
Defined.

(** X2.  With the registry empty [spark_dispose] does nothing at all, and a
    [spark_dispose] that returns leaves the registry empty: calling it
    again changes nothing.  Unlike [dispose], it is idempotent. *)
Theorem X2_spark_dispose_idempotent (w : World) :
  (registry w = None -> spark_dispose w = (Return tt, w)) /\
  (forall w1,
     spark_dispose w = (Return tt, w1) ->
     registry w1 = None /\ spark_dispose w1 = (Return tt, w1)).
Proof.
  assert (Hempty : forall w0, registry w0 = None -> spark_dispose w0 = (Return tt, w0)).
  { intros w0 H0. unfold spark_dispose. py_red. by rewrite H0. }
  split; [apply Hempty |].
  intros w1 Hrun. destruct (spark_dispose_returned w w1 Hrun) as (Hreg & _).
  split; [done | by apply Hempty].
Qed.

Lemma X2_spark_dispose_idempotent_witness :
  registry world1 = Some 0 /\
  registry (snd (spark_dispose world1)) = None /\
  spark_dispose (snd (spark_dispose world1)) = (Return tt, snd (spark_dispose world1)).
Proof.
  assert (Hreg : registry world1 = Some 0) by by_vm.
  assert (Hfst : fst (spark_dispose world1) = Return tt) by by_vm.
  split; [exact Hreg |].
  exact (proj2 (X2_spark_dispose_idempotent world1) _ (run_returns _ _ _ Hfst)).
Defined.

(** ** The pattern on a well-formed URL *)

Section Greedy.

Context {A : Type}.
Implicit Types (p : ascii -> bool) (k : string -> string -> option A).

(** A greedy repetition that succeeds after running over [N] and more
    succeeds with the same result from the start. *)
Lemma star_app_Some p k N rest a :
  Re.all_chars p N = true ->
  Re.star p (fun m r => k (N +:+ m) r) rest = Some a ->
  Re.star p k (N +:+ rest) = Some a.
Proof.
  revert k. induction N as [|c N IH]; intros k HN Hk.
  - exact Hk.
  - rewrite append_cons. simpl in HN |- *.
    apply andb_true_iff in HN as [Hc HN]. rewrite Hc.
    by rewrite (IH (fun m r => k (String c m) r) HN Hk).
Qed.

(** It fails when the continuation fails at every split. *)
Lemma star_None p k s :
  (forall m r, s = m +:+ r -> k m r = None) -> Re.star p k s = None.
Proof.
  revert k. induction s as [|c s IH]; intros k Hk; simpl.
  - by apply (Hk "" "").
  - assert (Hhere : k "" (String c s) = None) by by apply (Hk "" (String c s)).
    destruct (p c); [| done].
    rewrite IH; [done |].
    intros m r ->. by apply (Hk (String c m) r).
Qed.

End Greedy.

Lemma name_char_not_slash c : Re.name_char c = true -> Ascii.eqb "/" c = false.
Proof.
  intros Hc. destruct (Ascii.eqb "/" c) eqn:Heq; [| done].
  apply Ascii.eqb_eq in Heq as <-. discriminate Hc.
Qed.

(** X3.  For a URL that ends in [/<name>.tgz], the name derived is exactly
    [<name>]. *)
Theorem X3_name_of_wellformed_url (P N : string) :
  Re.all_chars Re.dot P = true ->
  N <> "" ->
  Re.all_chars Re.name_char N = true ->
  Re.match_tarball (P +:+ "/" +:+ N +:+ ".tgz") = Some N.
Proof.
  intros HP HN HNc. unfold Re.match_tarball.
  apply star_app_Some; [done |].
  change ("/" +:+ N +:+ ".tgz") with (String "/" (N +:+ ".tgz")).
  cbn [Re.star]. change (Re.dot "/") with true. cbv iota.
  rewrite star_None.
  - rewrite (lit_complete "/" _ (N +:+ ".tgz")).
    destruct N as [|c N]; [done |].
    rewrite append_cons. cbn [Re.plus]. cbn [Re.all_chars] in HNc.
    apply andb_true_iff in HNc as [Hc HNc]. rewrite Hc.
    apply star_app_Some; [done |].
    cbv. by rewrite append_nil_r.
  - intros m r Hsplit.
    assert (Hr : Re.all_chars Re.name_char r = true).
    { assert (Hall : Re.all_chars Re.name_char (N +:+ ".tgz") = true)
        by (rewrite all_chars_app, HNc; reflexivity).
      rewrite Hsplit, all_chars_app in Hall. by apply andb_true_iff in Hall as [_ ?]. }
    destruct r as [|c r]; [done |].
    cbn [Re.all_chars] in Hr. apply andb_true_iff in Hr as [Hc _].
    cbn [Re.lit]. by rewrite (name_char_not_slash c Hc).
Qed.

Lemma X3_name_of_wellformed_url_witness :
  Re.match_tarball ("https://example.org/dist" +:+ "/" +:+ "spark-3.2.1-bin-hadoop3.2" +:+ ".tgz")
  = Some "spark-3.2.1-bin-hadoop3.2".
Proof.
  apply (X3_name_of_wellformed_url "https://example.org/dist" "spark-3.2.1-bin-hadoop3.2");
    [reflexivity | discriminate | reflexivity].
Defined.

(** ** Construction *)

(** X4.  The name [__init__] derives is never empty and is made of letters,
    digits, dots and hyphens only: it has no path separator, and
    [<name>.tgz] stands in the URL right after a slash. *)
Theorem X4_derived_name_shape (url g : string) :
  Re.match_tarball url = Some g ->
  g <> "" /\
  Re.all_chars Re.name_char g = true /\
  Re.all_chars (fun c => negb (Ascii.eqb c "/")) g = true /\
  exists P R, url = P +:+ "/" +:+ g +:+ ".tgz" +:+ R.
Proof.
  intros (P & R & Hurl & _ & Hne & Hall)%match_tarball_sound.
  split; [done |]. split; [done |]. split; [| by exists P, R].
  clear Hurl Hne. induction g as [|c g IH]; [done |].
  cbn [Re.all_chars] in Hall |- *. apply andb_true_iff in Hall as [Hc Hg].
  rewrite (IH Hg), andb_true_r.
  destruct (Ascii.eqb c "/") eqn:Heq; [| done].
  apply Ascii.eqb_eq in Heq as ->. discriminate Hc.
Qed.

Lemma X4_derived_name_shape_witness :
  "spark-1.0" <> "" /\
  Re.all_chars Re.name_char "spark-1.0" = true /\
  Re.all_chars (fun c => negb (Ascii.eqb c "/")) "spark-1.0" = true /\
  exists P R, "https://example.org/spark-1.0.tgz.zip" = P +:+ "/" +:+ "spark-1.0" +:+ ".tgz" +:+ R.
Proof. exact (X4_derived_name_shape "https://example.org/spark-1.0.tgz.zip" "spark-1.0" eq_refl). Defined.

(** X5.  Construction on a URL the pattern rejects raises before any download,
    extraction, print or environment change: only the parent handle has
    been stored on the instance. *)
Theorem X5_init_invalid_url_no_effect (self : nat) (d : NessieDemo) (w : World) :
  Re.match_tarball (spark_tarball d) = None ->
  exists w',
    NessieDemoSpark.__init__ self d w
      = (Raise (PyException ("Invalid Spark download URL " +:+ spark_tarball d)), w') /\
    trace w' = trace w /\ environ w' = environ w /\ files w' = files w /\
    registry w' = registry w /\ spark w' = spark w /\
    dict_of self w' = <[private "__demo" := VDemo d]> (dict_of self w) /\
    (forall o, o <> self -> heap w' !! o = heap w !! o).
Proof.
  intros Hm. rewrite (init_invalid_url self d w Hm).
  eexists. split; [reflexivity |]. py_cbn. split_and!; try done.
  - unfold dict_of. py_cbn. by rewrite lookup_insert_eq.
  - intros o Ho. by rewrite lookup_insert_ne.
Qed.

Lemma X5_init_invalid_url_no_effect_witness :
  exists w',
    NessieDemoSpark.__init__ 0 (demo_with 2 "https://example.org/dist/spark-3.2.1.zip") world0
      = (Raise (PyException
                  ("Invalid Spark download URL " +:+ "https://example.org/dist/spark-3.2.1.zip")),
         w') /\
    trace w' = trace world0 /\ environ w' = environ world0 /\ files w' = files world0.
Proof.
  destruct (X5_init_invalid_url_no_effect 0
              (demo_with 2 "https://example.org/dist/spark-3.2.1.zip") world0 eq_refl)
    as (w' & Hrun & Ht & He & Hf & _).
  exists w'. auto.
Defined.

(** X6.  A construction that returns has changed [os.environ] at
    [SPARK_HOME] and [PYSPARK_PYTHON] only, the two variables it and
    [findspark.init()] write: [SPARK_HOME] names the asset directory of
    the derived name (when that is not the empty path) and a
    [PYSPARK_PYTHON] already set is kept.  It has changed the instance at
    its parent-handle attribute only, and neither another instance, nor
    the registry, nor pyspark: no session exists after construction that
    did not exist before. *)
Theorem X6_init_confined (self : nat) (d : NessieDemo) (w w' : World) :
  NessieDemoSpark.__init__ self d w = (Return tt, w') ->
  exists n,
    Re.match_tarball (spark_tarball d) = Some n /\
    (_asset_dir d n <> "" -> environ w' !! "SPARK_HOME" = Some (_asset_dir d n)) /\
    (forall v, environ w !! "PYSPARK_PYTHON" = Some v ->
               environ w' !! "PYSPARK_PYTHON" = Some v) /\
    (forall k, k <> "SPARK_HOME" -> k <> "PYSPARK_PYTHON" ->
               environ w' !! k = environ w !! k) /\
    dict_of self w' = <[private "__demo" := VDemo d]> (dict_of self w) /\
    (forall o, o <> self -> heap w' !! o = heap w !! o) /\
    registry w' = registry w /\
    spark w' = spark w.
Proof.
  intros Hrun.
  destruct (Re.match_tarball (spark_tarball d)) as [n|] eqn:Hm.
  2:{ by rewrite (init_invalid_url self d w Hm) in Hrun. }
  exists n. split; [done |].
  destruct (init_run self d w n Hm) as (Hh & Hr & Hs & _ & _ & Hk & Hpy & Hhome & _).
  rewrite Hrun in Hh, Hr, Hs, Hk, Hpy, Hhome. cbn [fst snd] in *.
  split_and!; try done.
  - by apply Hhome.
  - unfold dict_of at 1. by rewrite Hh, lookup_insert_eq.
  - intros o Ho. by rewrite Hh, lookup_insert_ne.
Qed.

Lemma X6_init_confined_witness :
  environ (snd (NessieDemoSpark.__init__ 0 demo1 world0)) !! "SPARK_HOME"
    = Some "/assets/spark-3.2.1-bin-hadoop3.2" /\
  registry (snd (NessieDemoSpark.__init__ 0 demo1 world0)) = registry world0 /\
  spark (snd (NessieDemoSpark.__init__ 0 demo1 world0)) = spark world0.
Proof.
  assert (Hfst : fst (NessieDemoSpark.__init__ 0 demo1 world0) = Return tt) by by_vm.
  destruct (X6_init_confined 0 demo1 world0 _ (run_returns _ _ _ Hfst))
    as (n & Hn & Hhome & _ & _ & _ & _ & Hr & Hs).
  injection Hn as <-.
  split; [| by split]. apply Hhome. discriminate.
Defined.

(** ** Sessions and the registry *)



(** X8.  What a returning [spark_for_demo] hands back belongs together: the
    manager returned is a new instance, it is the one registered, and its
    attributes are exactly the parent handle given and the session,
    context and gateway view returned. *)
Theorem X8_spark_for_demo_result (d : NessieDemo) (r : string) (w : World)
    (v1 v2 v3 : Value) (m : nat) (w' : World) :
  spark_for_demo d r w = (Return (v1, v2, v3, m), w') ->
  (m ∉ dom (heap w)) /\
  registry w' = Some m /\
  dict_of m w' =
    <[private "__jvm" := v3]>
      (<[private "__spark_context" := v2]>
         (<[private "__spark" := v1]> {[private "__demo" := VDemo d]})).
Proof.
  intros Hrun.
  unfold spark_for_demo in Hrun.
  apply bind_Return_inv in Hrun as ([] & w1 & Hsd & Hrun).
  assert (Hdom : dom (heap w) ⊆ dom (heap w1)).
  { destruct (spark_dispose_returned w w1 Hsd) as (_ & Hnone & Hsome).
    destruct (registry w) as [m0|] eqn:Hreg; [| by rewrite (Hnone eq_refl)].
    destruct (Hsome m0 eq_refl) as (w0 & Hd & ->).
    pose proof (dispose_kept m0 w) as Hk. rewrite Hd in Hk.
    by destruct Hk as (_ & _ & _ & _ & _ & _ & Hk & _). }
  destruct (NessieDemoSpark.new d w1) as [[m0|e] w2] eqn:Hn.
  2:{ by rewrite (bind_raise _ _ _ _ _ Hn) in Hrun. }
  destruct (new_returned d w1 m0 w2 Hn) as (Hfr & Hh & Hr & Hs & Hp & Ht).
  rewrite (bind_ok _ _ _ _ _ Hn) in Hrun. py_red_in Hrun.
  assert (Hdict : dict_of m0 (with_registry (Some m0) w2) = {[private "__demo" := VDemo d]}).
  { unfold dict_of. py_cbn. rewrite Hh. by simplify_map_eq. }
  assert (Hdm : dict_of m0 (with_registry (Some m0) w2) !! private "__demo" = Some (VDemo d)).
  { rewrite Hdict. by simplify_map_eq. }
  destruct (goc_run m0 r d _ Hdm) as
    [(s & o & port & w3 & Hg & _ & _ & _ & Hh3 & Hr3 & _)
    | [(w3 & Hg & _) | (w3 & Hg & _)]].
  2,3: by rewrite (bind_raise _ _ _ _ _ Hg) in Hrun.
  rewrite (bind_ok _ _ _ _ _ Hg) in Hrun. py_red_in Hrun.
  injection Hrun as <- <- <- <- <-.
  split_and!.
  - intros Hin. apply (is_fresh (dom (heap w1))). rewrite <- Hfr. by apply Hdom.
  - by rewrite Hr3.
  - unfold dict_of at 1. rewrite Hh3, lookup_insert_eq. cbn [default from_option id].
    by rewrite Hdict.
Qed.

Lemma X8_spark_for_demo_result_witness :
  (0 ∉ dom (heap world0)) /\
  registry world1 = Some 0 /\
  dict_of 0 world1 =
    <[private "__jvm" := VJvm 7]>
      (<[private "__spark_context" := VContext 0]>
         (<[private "__spark" := VSession 0]> {[private "__demo" := VDemo demo1]})).
Proof.
  assert (Hfst : fst (spark_for_demo demo1 "main" world0)
                 = Return (VSession 0, VContext 0, VJvm 7, 0)) by by_vm.
  exact (X8_spark_for_demo_result demo1 "main" world0 _ _ _ 0 _ (run_returns _ _ _ Hfst)).
Defined.

(** X9.  A [spark_for_demo] whose URL is rejected raises right after the
    disposal of the manager registered before, once that disposal has
    returned: the registry has been emptied, nothing more has been
    called, and the failed call leaves no manager registered. *)
Theorem X9_spark_for_demo_invalid_url (d : NessieDemo) (r : string) (w w1 : World) :
  Re.match_tarball (spark_tarball d) = None ->
  spark_dispose w = (Return tt, w1) ->
  exists w',
    spark_for_demo d r w
      = (Raise (PyException ("Invalid Spark download URL " +:+ spark_tarball d)), w') /\
    registry w' = None /\
    trace w' = trace w1.
Proof.
  intros Hm Hsd.
  destruct (spark_dispose_returned w w1 Hsd) as (Hreg & _).
  unfold spark_for_demo. rewrite (bind_ok _ _ _ _ _ Hsd).
  unfold NessieDemoSpark.new. py_red.
  rewrite (bind_raise _ _ _ _ _ (init_invalid_url _ d _ Hm)).
  eexists. split; [reflexivity |]. py_cbn. by split.
Qed.

Lemma X9_spark_for_demo_invalid_url_witness :
  exists w',
    spark_for_demo (demo_with 2 "https://example.org/dist/spark-3.2.1.zip") "main" world1
      = (Raise (PyException
                  ("Invalid Spark download URL " +:+ "https://example.org/dist/spark-3.2.1.zip")),
         w') /\
    registry w' = None.
Proof.
  assert (Hfst : fst (spark_dispose world1) = Return tt) by by_vm.
  destruct (X9_spark_for_demo_invalid_url
              (demo_with 2 "https://example.org/dist/spark-3.2.1.zip") "main" world1 _ eq_refl
              (run_returns _ _ _ Hfst))
    as (w' & Hrun & Hreg & _).
  exists w'. auto.
Defined.

(** The session [getOrCreate] returns is the instantiated one afterwards. *)
Lemma builder_instantiated conf w s w1 :
  builder_getOrCreate conf w = (Return s, w1) ->
  instantiated_session (spark w1) = Some s.
Proof.
  unfold builder_getOrCreate. py_red.
  destruct (instantiated_session (spark w) ≫= _) as [[s0 o]|] eqn:Hi.
  - py_red. intros [= <- <-]. py_cbn.
    destruct (instantiated_session (spark w)) as [s1|]; [| done].
    cbn in Hi. destruct (sessions (spark w) !! s1); [| done]. by injection Hi as -> _.
  - unfold SparkContext_getOrCreate. py_red.
    destruct (active_spark_context (spark w)) as [c|].
    + py_red. by intros [= <- <-].
    + unfold ensure_gateway. py_red.
      destruct (gateway (spark w)) as [port|].
      * py_red. by intros [= <- <-].
      * py_red. destruct (launch_gateway (platform w)) as [port|].
        -- py_red. by intros [= <- <-].
        -- done.
Qed.

(** The reuse branch of [getOrCreate]: with a session instantiated, that
    session is returned, its options overridden by those of [conf]. *)
Lemma builder_reuse conf w s o :
  instantiated_session (spark w) = Some s ->
  sessions (spark w) !! s = Some o ->
  builder_getOrCreate conf w =
    (Return s,
     with_spark
       (with_sessions
          (<[s := {| ss_context := ss_context o; ss_conf := conf ∪ ss_conf o |}]>
             (sessions (spark w))) (spark w)) w).
Proof.
  intros Hi Hs. unfold builder_getOrCreate. py_red.
  rewrite Hi. cbn. rewrite Hs. cbn. by py_red.
Qed.

(** X14.  Asking a manager for its session a second time, for another
    reference, creates no session: the call returns the same session,
    context and gateway view as the first, and that one session now
    carries the second reference. *)
Theorem X14_second_call_reuses_session (self : nat) (d : NessieDemo) (r0 r : string)
    (w w1 : World) (v1 v2 v3 : Value) :
  dict_of self w !! private "__demo" = Some (VDemo d) ->
  NessieDemoSpark.get_or_create_spark_context self r0 w = (Return (v1, v2, v3), w1) ->
  exists s o2 w2,
    v1 = VSession s /\
    NessieDemoSpark.get_or_create_spark_context self r w1 = (Return (v1, v2, v3), w2) /\
    sessions (spark w2) !! s = Some o2 /\
    ss_conf o2 !! "spark.sql.catalog.nessie.ref" = Some r /\
    v2 = VContext (ss_context o2) /\
    dom (sessions (spark w2)) = dom (sessions (spark w1)).
Proof.
  intros Hd Hrun.
  (* the first call *)
  assert (Hinst : exists s o port,
             v1 = VSession s /\ v2 = VContext (ss_context o) /\ v3 = VJvm port /\
             sessions (spark w1) !! s = Some o /\
             gateway (spark w1) = Some port /\
             instantiated_session (spark w1) = Some s /\
             dict_of self w1 !! private "__demo" = Some (VDemo d)).
  { destruct (goc_run self r0 d w Hd) as
      [(s & o & port & w1' & Hg & Hs & _ & Hgw & Hh & _ & _)
      | [(w1' & Hg & _) | (w1' & Hg & _)]]; rewrite Hg in Hrun; [| done ..].
    injection Hrun as <- <- <- <-.
    exists s, o, port. split_and!; try done.
    - unfold NessieDemoSpark.get_or_create_spark_context in Hg. py_red_in Hg.
      apply bind_Return_inv in Hg as (conf & wc & Hc & Hg).
      apply bind_Return_inv in Hg as (s' & wb & Hb & Hg).
      pose proof (builder_instantiated _ _ _ _ Hb) as Hi.
      destruct (builder_run conf wc) as
        [(s'' & o'' & wb' & Hb' & Hs'' & _) | [Hb' _]]; rewrite Hb' in Hb; [| done].
      injection Hb as -> ->.
      rewrite (goc_tail self s' o'' wb Hs'') in Hg.
      destruct (gateway (spark wb)); [| done].
      injection Hg as -> _ _ <-. by py_cbn.
    - unfold dict_of. rewrite Hh. by simplify_map_eq. }
  destruct Hinst as (s & o & port & -> & -> & -> & Hs & Hgw & Hi & Hd1).
  (* the second call *)
  unfold NessieDemoSpark.get_or_create_spark_context. py_red.
  set (w0 := with_trace _ w1).
  assert (Hd0 : dict_of self w0 !! private "__demo" = Some (VDemo d)) by done.
  destruct (spark_conf_ref self r d w0 Hd0) as (conf & Hconf & Href).
  rewrite (bind_ok _ _ _ _ _ Hconf).
  rewrite (bind_ok _ _ _ _ _ (builder_reuse conf w0 s o Hi Hs)).
  set (o2 := {| ss_context := ss_context o; ss_conf := conf ∪ ss_conf o |}).
  rewrite (goc_tail self s o2); [| subst w0; py_cbn; by rewrite lookup_insert_eq].
  subst w0. py_cbn. rewrite Hgw.
  exists s, o2. eexists. split; [done |]. split; [reflexivity |]. py_cbn.
  split; [by rewrite lookup_insert_eq |].
  split; [by apply lookup_union_Some_l |].
  split; [done |].
  rewrite dom_insert_L. apply subseteq_union_1_L, singleton_subseteq_l.
  by apply elem_of_dom_2 in Hs.
Qed.

Lemma X14_second_call_reuses_session_witness :
  let w1 := snd (NessieDemoSpark.get_or_create_spark_context 0 "main" world_new) in
  exists s o2 w2,
    VSession 0 = VSession s /\
    NessieDemoSpark.get_or_create_spark_context 0 "feature-1" w1
      = (Return (VSession 0, VContext 0, VJvm 7), w2) /\
    sessions (spark w2) !! s = Some o2 /\
    ss_conf o2 !! "spark.sql.catalog.nessie.ref" = Some "feature-1" /\
    VContext 0 = VContext (ss_context o2) /\
    dom (sessions (spark w2)) = dom (sessions (spark w1)).
Proof.
  assert (Hd : dict_of 0 world_new !! private "__demo" = Some (VDemo demo1)) by by_vm.
  assert (Hfst : fst (NessieDemoSpark.get_or_create_spark_context 0 "main" world_new)
                 = Return (VSession 0, VContext 0, VJvm 7)) by by_vm.
  exact (X14_second_call_reuses_session 0 demo1 "main" "feature-1" world_new _ _ _ _ Hd
           (run_returns _ _ _ Hfst)).
Defined.

(** ** The context manager *)

(** X10.  Leaving a [with] block over a manager runs [dispose] on the world
    the body reached; when that [dispose] returns, the block ends as its
    body ended, with the same value or the same exception: [__exit__]
    suppresses nothing. *)
Theorem X10_with_manager_transparent {A} (self : nat) (body : nat -> M A) (w w2 : World) :
  NessieDemoSpark.dispose self (snd (body self w)) = (Return tt, w2) ->
  with_manager self body w = (fst (body self w), w2).
Proof.
  intros Hd.
  unfold with_manager, NessieDemoSpark.__enter__, NessieDemoSpark.__exit__. py_red.
  destruct (body self w) as [[a|e] w1]; cbn [fst snd] in *;
    by rewrite (bind_ok _ _ _ _ _ Hd).
Qed.

Lemma X10_with_manager_transparent_witness :
  let body := fun x => NessieDemoSpark.session_for_ref x "feature-1" in
  with_manager 0 body world_new
  = (fst (body 0 world_new), snd (NessieDemoSpark.dispose 0 (snd (body 0 world_new)))).
Proof.
  assert (Hfst : fst (NessieDemoSpark.dispose 0
                        (snd (NessieDemoSpark.session_for_ref 0 "feature-1" world_new)))
                 = Return tt) by by_vm.
  exact (X10_with_manager_transparent 0
           (fun x => NessieDemoSpark.session_for_ref x "feature-1") world_new _
           (run_returns _ _ _ Hfst)).
Defined.

(** ** The test fixture *)

Module TestUtilFacts.

Import TestUtil.



(** X12.  A pid file that cannot be read as a number makes the teardown raise
    [ValueError]: that read is outside the [try], and nothing was done. *)
Theorem X12_kill_unparsable (tmpdir bytes : string) (e : Env) :
  os_path_join tmpdir "nessie.pid" ∈ files e ->
  contents e !! os_path_join tmpdir "nessie.pid" = Some bytes ->
  parse_int e bytes = None ->
  __kill_running_nessie tmpdir e = (Err ValueError, e).
Proof.
  intros Hf Hc Hp. unfold __kill_running_nessie.
  rewrite bool_decide_true by done. by rewrite Hc, Hp.
Qed.

(** X13.  The fixture always returns; it points [NESSIE_DEMO_ROOT] at the
    parent of the working directory when that has a [configs] entry and at
    the grandparent otherwise; it keeps a [NESSIE_DEMO_ASSETS] that is
    already set, making no directory, and otherwise sets it to a new
    temporary directory; no other variable changes; and the finalizer it
    registers is closed over the very directory [NESSIE_DEMO_ASSETS]
    names afterwards. *)
Theorem X13_fixture_environment (tf : TempdirFactory) (e : Env) :
  let parent := abspath e ".." in
  let d := if bool_decide (os_path_join parent "configs" ∈ files e)
           then parent else abspath e (os_path_join parent "..") in
  exists e' tmpdir,
    demo_setup_fixture_for_tests tf e = (Ok tt, e') /\
    environ e' !! "NESSIE_DEMO_ROOT" = Some ("file://" +:+ d) /\
    environ e' !! "NESSIE_DEMO_ASSETS" = Some tmpdir /\
    finalizers e' = (finalizers e ++ [tmpdir])%list /\
    trace e' = (trace e ++ [Print ("TEST-TEARDOWN: Using " +:+ tmpdir +:+ " for assets")])%list /\
    (forall k, k <> "NESSIE_DEMO_ROOT" -> k <> "NESSIE_DEMO_ASSETS" ->
       environ e' !! k = environ e !! k) /\
    (forall t, environ e !! "NESSIE_DEMO_ASSETS" = Some t -> tmpdir = t /\ files e' = files e) /\
    (environ e !! "NESSIE_DEMO_ASSETS" = None ->
       tmpdir = mktemp tf "_assets" (files e) /\ files e' = {[tmpdir]} ∪ files e) /\
    processes e' = processes e /\ contents e' = contents e.
Proof.
  intros parent d. unfold demo_setup_fixture_for_tests. fold parent.
  assert (Hd : (if negb (bool_decide (os_path_join parent "configs" ∈ files e))
                then abspath e (os_path_join parent "..") else parent) = d).
  { subst d. by destruct (bool_decide _). }
  rewrite Hd. clear Hd. generalize d. clear d. intros d.
  cbn [environ files contents with_environ abspath].
  rewrite lookup_insert_ne by done.
  destruct (environ e !! "NESSIE_DEMO_ASSETS") as [t|] eqn:Ht.
  - exists (with_finalizers (finalizers e ++ [t])
              (print ("TEST-TEARDOWN: Using " +:+ t +:+ " for assets")
                 (with_environ (<["NESSIE_DEMO_ROOT" := "file://" +:+ d]> (environ e)) e))), t.
    split; [reflexivity |].
    cbn [environ files contents processes finalizers trace with_finalizers print with_environ].
    split_and!; try done.
    + by simplify_map_eq.
    + by simplify_map_eq.
    + intros k Hk1 Hk2. by simplify_map_eq.
    + by intros t' [= ->].
  - eexists _, (mktemp tf "_assets" (files e)).
    split; [reflexivity |].
    cbn [environ files contents processes finalizers trace with_finalizers print with_environ
         with_files].
    split_and!; try done.
    + by simplify_map_eq.
    + by simplify_map_eq.
    + intros k Hk1 Hk2. by simplify_map_eq.
Qed.

Lemma X13_fixture_environment_witness :
  exists e' tmpdir,
    demo_setup_fixture_for_tests test_tmpdir_factory test_env
      = (Ok tt, e') /\
    environ e' !! "NESSIE_DEMO_ROOT" = Some "file:///repo" /\
    environ e' !! "NESSIE_DEMO_ASSETS" = Some tmpdir /\
    tmpdir = "/tmp/pytest/_assets".
Proof.
  destruct (X13_fixture_environment test_tmpdir_factory test_env)
    as (e' & tmpdir & Hrun & Hroot & Hassets & _ & _ & _ & _ & Hnone & _).
  destruct (Hnone eq_refl) as [Ht _].
  exists e', tmpdir. split; [exact Hrun |]. split; [exact Hroot |]. split; [exact Hassets |].
  exact Ht.
Defined.

Lemma X12_kill_unparsable_witness :
  let e := TestUtil.with_files (files test_env) {["/assets/nessie.pid" := "not a pid"]} test_env in
  __kill_running_nessie "/assets" e = (Err ValueError, e).
Proof.
  apply (X12_kill_unparsable "/assets" "not a pid");
    [apply (bool_decide_unpack _); by_vm | reflexivity | reflexivity].
Defined.

End TestUtilFacts.
